(** * Emissions API: the database layer (db.py) and the web layer (web.py)

    A shallow embedding of [emissionsapi/db.py] and [emissionsapi/web.py].
    The PostgreSQL/PostGIS engine, the modules [emissionsapi.utils] and
    [emissionsapi.country_bounding_boxes], and [dateutil] are outside these two
    files; what the code uses of them is a field of the classes [Engine] and
    [Imports]. *)

From Stdlib Require Import ZArith List String Bool Lia Permutation.
From stdpp Require Import gmap strings list fin_maps.

Local Open Scope string_scope.
Local Open Scope Z_scope.

(** ** Python exceptions and results *)

Inductive exn : Type :=
| OperationalError               (* sqlalchemy.exc: connection or transaction failure *)
| IntegrityError (detail : string)
| DataError (detail : string)
| ProgrammingError (detail : string)
| TypeError (msg : string)
| AttributeError (msg : string)
| ValueError
| OverflowError
| RESTParamError (msg : string). (* emissionsapi.utils.RESTParamError *)

Inductive outcome (A : Type) : Type :=
| Return (a : A)
| Raise (e : exn).
Arguments Return {A} a.
Arguments Raise {A} e.

Definition returns {A} (o : outcome A) : bool :=
  match o with Return _ => true | Raise _ => false end.

#[export] Instance outcome_ret : MRet outcome := @Return.
#[export] Instance outcome_bind : MBind outcome := fun A B k o =>
  match o with Return a => k a | Raise e => Raise e end.

(** ** SQL's three-valued logic: [None] is NULL / unknown *)

Definition sql_is_null {A} (c : option A) : option bool :=
  Some (match c with None => true | Some _ => false end).

Definition sql_le (a b : option Z) : option bool :=
  match a, b with Some x, Some y => Some (x <=? y) | _, _ => None end.

Definition sql_gt (a b : option Z) : option bool :=
  match a, b with Some x, Some y => Some (x >? y) | _, _ => None end.

Definition sql_or (p q : option bool) : option bool :=
  match p, q with
  | Some true, _ | _, Some true => Some true
  | Some false, Some false => Some false
  | _, _ => None
  end.

Definition sql_and (p q : option bool) : option bool :=
  match p, q with
  | Some false, _ | _, Some false => Some false
  | Some true, Some true => Some true
  | _, _ => None
  end.

(** A WHERE clause keeps (or a DELETE removes) the rows on which the
    condition is TRUE; FALSE and NULL both reject the row. *)
Definition sql_holds (p : option bool) : bool :=
  match p with Some true => true | _ => false end.

(** ** ORM classes *)

(** [datetime.datetime] / the [DateTime] column type: a naive instant,
    counted in microseconds. *)
Abbreviation datetime := Z (only parsing).

(** class Cache(Base): the primary key [request] is the key of the table;
    [begin] and [end] are nullable columns. *)
Record Cache : Type := {
  Cache_begin : option datetime;
  Cache_end : option datetime;
  Cache_response : string            (* PickleType: the pickled bytes *)
}.

(** ** The PostgreSQL / PostGIS engine

    What the queries of db.py leave to the database engine.  A scan without
    ORDER BY delivers the rows of a table in an order of the engine's
    choosing ([scan_order]). *)
Class Engine : Type := {
  float : Type;                       (* double precision / Python float *)
  geometry : Type;
  ST_MakePoint : float -> float -> geometry;
  ST_X : geometry -> float;
  ST_Y : geometry -> float;
  ST_WITHIN : geometry -> string -> bool;
  ST_DWITHIN : geometry -> string -> float -> bool;
  (** [date_trunc field]: [None] when the engine does not recognise the field. *)
  date_trunc : string -> option (datetime -> datetime);
  date : datetime -> datetime;
  (** Aggregates over the non-null values of a group; [None] is NULL. *)
  avg : list float -> option float;
  stddev : list float -> option float;
  float_min : list float -> option float;
  float_max : list float -> option float;
  scan_order : forall {A : Type}, list A -> list A;
  scan_order_perm : forall (A : Type) (l : list A), Permutation (scan_order l) l
}.

Section EmissionsAPI.
Context `{Engine}.

(** class Carbonmonoxide(Base) *)
Record Carbonmonoxide : Type := {
  Carbonmonoxide_id : Z;
  Carbonmonoxide_value : option float;
  Carbonmonoxide_timestamp : option datetime;
  Carbonmonoxide_geom : option geometry
}.

(** ** The store and a session on it *)

(** The three tables: [carbonmonoxide] in the order the engine scans it,
    [file] (primary key [filename]) and [cache] (primary key [request]). *)
Record Database : Type := {
  carbonmonoxide : list Carbonmonoxide;
  file : gset string;
  cache : gmap string Cache
}.

(** The database server: the committed data, which is what any other
    session reads; the sequence behind the serial primary key, which is not
    transactional; and the failures the storage is going to have, one entry
    per storage operation ([Some e]: that operation raises [e]). *)
Record Server : Type := {
  disk : Database;
  carbonmonoxide_id_seq : Z;
  faults : list (option exn)
}.

(** A [sqlalchemy.orm.session.Session]: its transaction works on [txn] and
    publishes it on commit. *)
Record Session : Type := {
  server : Server;
  txn : Database
}.

(** Code that runs on a session and may raise. *)
Definition M (A : Type) : Type := Session -> outcome A * Session.

Definition ret {A} (a : A) : M A := fun s => (Return a, s).
Definition raise {A} (e : exn) : M A := fun s => (Raise e, s).
Definition bind {A B} (m : M A) (k : A -> M B) : M B :=
  fun s => match m s with
           | (Return a, s') => k a s'
           | (Raise e, s') => (Raise e, s')
           end.

#[global] Instance M_ret : MRet M := @ret.
#[global] Instance M_bind : MBind M := fun A B k m => bind m k.

Definition get_state : M Session := fun s => (Return s, s).
Definition put_state (s : Session) : M unit := fun _ => (Return tt, s).

Definition set_faults (fs : list (option exn)) (s : Session) : Session :=
  {| server := {| disk := disk (server s);
                  carbonmonoxide_id_seq := carbonmonoxide_id_seq (server s);
                  faults := fs |};
     txn := txn s |}.

Definition set_disk (d : Database) (s : Session) : Session :=
  {| server := {| disk := d;
                  carbonmonoxide_id_seq := carbonmonoxide_id_seq (server s);
                  faults := faults (server s) |};
     txn := txn s |}.

Definition set_txn (d : Database) (s : Session) : Session :=
  {| server := server s; txn := d |}.

Definition set_cache (c : gmap string Cache) (d : Database) : Database :=
  {| carbonmonoxide := carbonmonoxide d; file := file d; cache := c |}.

(** One round trip to the storage: it fails when the script says so. *)
Definition storage_op : M unit :=
  s ← get_state;
  match faults (server s) with
  | [] => ret tt
  | Some e :: rest => put_state (set_faults rest s);; raise e
  | None :: rest => put_state (set_faults rest s)
  end.

(** session.commit(): the transaction's changes become the stored data. *)
Definition commit : M unit :=
  storage_op;;
  s ← get_state;
  put_state (set_disk (txn s) s).

(** session.rollback() *)
Definition rollback : M unit :=
  s ← get_state;
  put_state (set_txn (disk (server s)) s).

(** session.close(): a transaction in progress is abandoned. *)
Definition close : M unit :=
  s ← get_state;
  put_state (set_txn (disk (server s)) s).

(** ** class Cache: invalidate *)

(** The filter of [Cache.invalidate]:
    and_(or_(cache.begin.is_(None), cache.begin <= latest),
         or_(cache.end.is_(None), cache.end > earliest)) *)
Definition invalidate_filter (earliest latest : datetime) (c : Cache) : option bool :=
  sql_and (sql_or (sql_is_null (Cache_begin c))
                  (sql_le (Cache_begin c) (Some latest)))
          (sql_or (sql_is_null (Cache_end c))
                  (sql_gt (Cache_end c) (Some earliest))).

(** What a DELETE with WHERE clause [crit] leaves of the cache table: the
    rows on which [crit] is not TRUE. *)
Definition delete_where (crit : Cache -> option bool) (t : gmap string Cache)
  : gmap string Cache :=
  filter (fun kv => sql_holds (crit kv.2) = false) t.

(** session.query(cache).filter(crit).delete(): one DELETE statement in the
    session's transaction; the number of rows matched is returned. *)
Definition Query_delete (crit : Cache -> option bool) : M nat :=
  storage_op;;
  s ← get_state;
  let t := cache (txn s) in
  put_state (set_txn (set_cache (delete_where crit t) (txn s)) s);;
  ret (size t - size (delete_where crit t))%nat.

(** Cache.invalidate(session, earliest, latest).  [earliest] and [latest]
    are datetimes: the method calls [isoformat()] on both. *)
Definition Cache_invalidate (earliest latest : datetime) : M unit :=
  (* logger.debug(...) *)
  Query_delete (invalidate_filter earliest latest);;
  commit.

(** ** with_session, get_session *)

(** get_session(): a new session on the store.  The engine and the
    sessionmaker behind the module global [__session__] are taken as
    created, and the tables with them. *)
Definition get_session (srv : Server) : Session :=
  {| server := srv; txn := disk srv |}.

(** with_session(f): [f] runs on a new session; when it raises, the session
    is rolled back and closed and the exception is raised again; otherwise
    the session is closed and the result returned. *)
Definition with_session {A} (f : M A) (srv : Server) : outcome A * Server :=
  let session := get_session srv in
  match f session with
  | (Raise e, s1) =>
      let s2 := (rollback s1).2 in
      let s3 := (close s2).2 in
      (Raise e, server s3)
  | (Return result, s1) =>
      let s2 := (close s1).2 in
      (Return result, server s2)
  end.

(** ** insert *)

(** One dictionary of [data]. *)
Record datum : Type := {
  datum_value : option float;
  datum_timestamp : option datetime;
  datum_longitude : option float;
  datum_latitude : option float
}.

(** The row that
    insert into carbonmonoxide (value, timestamp, geom)
    values (:value, :timestamp, ST_MakePoint(:longitude, :latitude))
    makes of a dictionary; the primary key comes from the sequence. *)
Definition new_row (id : Z) (d : datum) : Carbonmonoxide :=
  {| Carbonmonoxide_id := id;
     Carbonmonoxide_value := datum_value d;
     Carbonmonoxide_timestamp := datum_timestamp d;
     Carbonmonoxide_geom :=
       match datum_longitude d, datum_latitude d with
       | Some lon, Some lat => Some (ST_MakePoint lon lat)
       | _, _ => None
       end |}.

Fixpoint new_rows (next : Z) (data : list datum) : list Carbonmonoxide :=
  match data with
  | [] => []
  | d :: rest => new_row next d :: new_rows (next + 1) rest
  end.

(** insert(session, data, table_name): one statement, executed for the whole
    list in the session's transaction; nothing is committed here. *)
Definition insert (data : list datum) (table_name : string) : M unit :=
  storage_op;;
  if decide (table_name = "carbonmonoxide") then
    s ← get_state;
    let srv := server s in
    let next := carbonmonoxide_id_seq srv + 1 in
    let d := txn s in
    put_state
      {| server := {| disk := disk srv;
                      carbonmonoxide_id_seq := carbonmonoxide_id_seq srv
                                               + Z.of_nat (length data);
                      faults := faults srv |};
         txn := {| carbonmonoxide := carbonmonoxide d ++ new_rows next data;
                   file := file d;
                   cache := cache d |} |}
  else
    raise (ProgrammingError table_name).

(** ** Ingest *)

Definition set_file (f : gset string) (d : Database) : Database :=
  {| carbonmonoxide := carbonmonoxide d; file := f; cache := cache d |}.

(** Modelled from the spec: [markImported], which the import tooling runs
    and which is in neither db.py nor web.py.  It adds the [File] row of a
    source file to the session's transaction and fails when the ledger has
    the file name already. *)
Definition markImported (filename : string) : M unit :=
  storage_op;;
  s ← get_state;
  if decide (filename ∈ file (txn s)) then
    raise (IntegrityError filename)
  else
    put_state (set_txn (set_file ({[filename]} ∪ file (txn s)) (txn s)) s).

Definition datetime_min (ts : list datetime) : option datetime :=
  match ts with [] => None | t :: rest => Some (foldr Z.min t rest) end.

Definition datetime_max (ts : list datetime) : option datetime :=
  match ts with [] => None | t :: rest => Some (foldr Z.max t rest) end.

(** Modelled from the spec: the ingest driver of the import tooling, which
    is in neither db.py nor web.py.  In one session it inserts the batch,
    marks the source file as imported and invalidates the cache between the
    earliest and the latest timestamp of the batch; [insert] and
    [Cache_invalidate] are the functions of db.py. *)
Definition ingest (data : list datum) (filename : string) : M unit :=
  insert data "carbonmonoxide";;
  markImported filename;;
  match datetime_min (omap datum_timestamp data),
        datetime_max (omap datum_timestamp data) with
  | Some earliest, Some latest => Cache_invalidate earliest latest
  | _, _ => raise ValueError
  end.

(** ** Queries *)

(** The expressions a query of db.py groups by. *)
Inductive interval_expr : Type :=
| func_date                                  (* func.date(timestamp) *)
| func_date_trunc (interval_length : string). (* func.date_trunc(.., timestamp) *)

(** The columns a query of db.py selects. *)
Inductive column : Type :=
| Carbonmonoxide_entity
| geom_ST_X
| geom_ST_Y
| func_count_value
| func_avg_value
| func_stddev_value
| func_min_value
| func_max_value
| func_min_timestamp
| func_max_timestamp
| interval_column (k : interval_expr).

(** The criteria [filter_query] adds. *)
Inductive criterion : Type :=
| ST_DWITHIN_geom (wkt : string) (distance : float)
| ST_WITHIN_geom (wkt : string)
| begin_le_timestamp (begin : datetime)
| end_gt_timestamp (end_ : datetime).

(** A [sqlalchemy.orm.query.Query] on the carbonmonoxide table.  No function
    of db.py or web.py calls [order_by], so there is no such component. *)
Record Query : Type := {
  columns : list column;
  whereclause : list criterion;     (* a conjunction *)
  group_by : option interval_expr;
  limit : option N;
  offset : option N
}.

Definition Query_filter (q : Query) (c : criterion) : Query :=
  {| columns := columns q;
     whereclause := whereclause q ++ [c];
     group_by := group_by q;
     limit := limit q;
     offset := offset q |}.

Definition Query_limit (q : Query) (l : N) : Query :=
  {| columns := columns q;
     whereclause := whereclause q;
     group_by := group_by q;
     limit := Some l;
     offset := offset q |}.

Definition Query_offset (q : Query) (o : N) : Query :=
  {| columns := columns q;
     whereclause := whereclause q;
     group_by := group_by q;
     limit := limit q;
     offset := Some o |}.

(** get_points(session) *)
Definition get_points : Query :=
  {| columns := [Carbonmonoxide_entity; geom_ST_X; geom_ST_Y];
     whereclause := [];
     group_by := None;
     limit := None;
     offset := None |}.

(** get_averages(session) *)
Definition get_averages : Query :=
  let day := func_date in
  {| columns := [func_avg_value; func_max_timestamp; func_min_timestamp;
                 interval_column day];
     whereclause := [];
     group_by := Some day;
     limit := None;
     offset := None |}.

(** get_statistics(session, interval_length='day') *)
Definition get_statistics (interval_length : string) : Query :=
  let interval := func_date_trunc interval_length in
  {| columns := [func_count_value; func_avg_value; func_stddev_value;
                 func_min_value; func_max_value;
                 func_min_timestamp; func_max_timestamp;
                 interval_column interval];
     whereclause := [];
     group_by := Some interval;
     limit := None;
     offset := None |}.

(** filter_query(query, wkt=None, distance=None, begin=None, end=None) *)
Definition filter_query (query : Query) (wkt : option string)
    (distance : option float) (begin end_ : option datetime) : Query :=
  (* Filter by WKT *)
  let query :=
    match wkt with
    | Some w =>
        match distance with
        | Some d => Query_filter query (ST_DWITHIN_geom w d)
        | None => Query_filter query (ST_WITHIN_geom w)
        end
    | None => query
    end in
  (* Filter for points after the time specified as begin *)
  let query :=
    match begin with
    | Some b => Query_filter query (begin_le_timestamp b)
    | None => query
    end in
  (* Filter for points before the time specified as end *)
  let query :=
    match end_ with
    | Some e => Query_filter query (end_gt_timestamp e)
    | None => query
    end in
  query.

(** limit_offset_query(query, limit=None, offset=None) *)
Definition limit_offset_query (query : Query) (limit offset : option N) : Query :=
  (* Apply limit *)
  let query :=
    match limit with
    | Some l => Query_limit query l
    | None => query
    end in
  (* Apply offset *)
  let query :=
    match offset with
    | Some o => Query_offset query o
    | None => query
    end in
  query.

(** ** What a query returns

    The SELECT statement the engine runs for a [Query]: scan, WHERE,
    GROUP BY and the select list, then OFFSET and LIMIT. *)

#[global] Instance interval_expr_eq_dec : EqDecision interval_expr.
Proof. solve_decision. Defined.

Definition eval_criterion (c : criterion) (p : Carbonmonoxide) : option bool :=
  match c with
  | ST_DWITHIN_geom wkt distance =>
      (fun g => ST_DWITHIN g wkt distance) <$> Carbonmonoxide_geom p
  | ST_WITHIN_geom wkt =>
      (fun g => ST_WITHIN g wkt) <$> Carbonmonoxide_geom p
  | begin_le_timestamp begin => sql_le (Some begin) (Carbonmonoxide_timestamp p)
  | end_gt_timestamp end_ => sql_gt (Some end_) (Carbonmonoxide_timestamp p)
  end.

(** The WHERE clause: the conjunction of the criteria. *)
Definition where_holds (cs : list criterion) (p : Carbonmonoxide) : bool :=
  sql_holds (foldr (fun c acc => sql_and (eval_criterion c p) acc) (Some true) cs).

(** The rows a query selects, in the order the engine delivers them. *)
Definition selected (q : Query) (table : list Carbonmonoxide) : list Carbonmonoxide :=
  filter (fun p => where_holds (whereclause q) p) (scan_order table).

(** A field of a result row. *)
Inductive cell : Type :=
| cell_entity (p : Carbonmonoxide)
| cell_count (n : Z)
| cell_float (v : option float)
| cell_datetime (t : option datetime).

Definition interval_fun (k : interval_expr) : outcome (datetime -> datetime) :=
  match k with
  | func_date => Return date
  | func_date_trunc interval_length =>
      match date_trunc interval_length with
      | Some trunc => Return trunc
      | None => Raise (DataError interval_length)
      end
  end.

Definition is_aggregate (c : column) : bool :=
  match c with
  | Carbonmonoxide_entity | geom_ST_X | geom_ST_Y | interval_column _ => false
  | _ => true
  end.

(** A column of an ungrouped query, on one row. *)
Definition scalar (p : Carbonmonoxide) (c : column) : outcome cell :=
  match c with
  | Carbonmonoxide_entity => Return (cell_entity p)
  | geom_ST_X => Return (cell_float (ST_X <$> Carbonmonoxide_geom p))
  | geom_ST_Y => Return (cell_float (ST_Y <$> Carbonmonoxide_geom p))
  | interval_column k =>
      trunc ← interval_fun k;
      Return (cell_datetime (trunc <$> Carbonmonoxide_timestamp p))
  | _ => Raise (ProgrammingError "aggregate mixed with plain columns")
  end.

(** A column of a grouped query, on one group [g] with key [key]; the
    aggregates skip NULL. *)
Definition aggregate (key : option (interval_expr * option datetime))
    (g : list Carbonmonoxide) (c : column) : outcome cell :=
  match c with
  | func_count_value =>
      Return (cell_count (Z.of_nat (length (omap Carbonmonoxide_value g))))
  | func_avg_value => Return (cell_float (avg (omap Carbonmonoxide_value g)))
  | func_stddev_value => Return (cell_float (stddev (omap Carbonmonoxide_value g)))
  | func_min_value => Return (cell_float (float_min (omap Carbonmonoxide_value g)))
  | func_max_value => Return (cell_float (float_max (omap Carbonmonoxide_value g)))
  | func_min_timestamp =>
      Return (cell_datetime (datetime_min (omap Carbonmonoxide_timestamp g)))
  | func_max_timestamp =>
      Return (cell_datetime (datetime_max (omap Carbonmonoxide_timestamp g)))
  | interval_column k =>
      match key with
      | Some (k', t) =>
          if decide (k = k') then Return (cell_datetime t)
          else Raise (ProgrammingError "column must appear in the GROUP BY clause")
      | None => Raise (ProgrammingError "column must appear in the GROUP BY clause")
      end
  | _ => Raise (ProgrammingError "column must appear in the GROUP BY clause")
  end.

(** The group of key [t]: the selected rows whose interval is [t]. *)
Definition group_of (trunc : datetime -> datetime) (t : option datetime)
    (rows : list Carbonmonoxide) : list Carbonmonoxide :=
  filter (fun p => trunc <$> Carbonmonoxide_timestamp p = t) rows.

(** The keys of the groups, each once. *)
Definition group_keys (trunc : datetime -> datetime) (rows : list Carbonmonoxide)
  : list (option datetime) :=
  remove_dups ((fun p => trunc <$> Carbonmonoxide_timestamp p) <$> rows).

(** OFFSET first, LIMIT after. *)
Definition paginate {A} (limit offset : option N) (rows : list A) : list A :=
  let rows := match offset with Some o => drop (N.to_nat o) rows | None => rows end in
  match limit with Some l => take (N.to_nat l) rows | None => rows end.

(** The rows of the statement before OFFSET and LIMIT. *)
Definition Query_rows (q : Query) (table : list Carbonmonoxide)
  : outcome (list (list cell)) :=
  let rows := selected q table in
  match group_by q with
  | Some k =>
      trunc ← interval_fun k;
      mapM (fun t => mapM (aggregate (Some (k, t)) (group_of trunc t rows))
                          (columns q))
           (group_keys trunc rows)
  | None =>
      if existsb is_aggregate (columns q) then
        row ← mapM (aggregate None rows) (columns q);
        Return [row]
      else
        mapM (fun p => mapM (scalar p) (columns q)) rows
  end.

Definition Query_all (q : Query) (table : list Carbonmonoxide)
  : outcome (list (list cell)) :=
  result ← Query_rows q table;
  Return (paginate (limit q) (offset q) result).

(** Iterating over a query in a session: the statement runs on what the
    session's transaction sees. *)
Definition Query_iter (q : Query) : M (list (list cell)) :=
  storage_op;;
  s ← get_state;
  match Query_all q (carbonmonoxide (txn s)) with
  | Return rows => ret rows
  | Raise e => raise e
  end.

(** ** Calling into the module emissionsapi.db

    web.py reaches the database layer through attribute lookups on the
    module object and calls with keyword arguments; both are checked when
    the line runs. *)

Inductive pyvalue : Type :=
| py_None
| py_str (s : string)
| py_datetime (t : datetime)
| py_int (n : N)
| py_session
| py_query (q : Query).

(** A function defined with [def]: its parameters in order, how many of the
    last ones have a default, and its body on the bound arguments. *)
Record pyfunction : Type := {
  def_name : string;
  parameters : list string;
  defaults : nat;
  body : list (string * pyvalue) -> outcome Query
}.

Inductive attribute : Type :=
| attr_def (f : pyfunction)
| attr_other.                     (* a class, a module or a plain value *)

Definition module : Type := list (string * attribute).

Fixpoint assoc {A} (k : string) (l : list (string * A)) : option A :=
  match l with
  | [] => None
  | (k', v) :: rest => if decide (k = k') then Some v else assoc k rest
  end.

(** module.name *)
Definition getattr (m : module) (name : string) : outcome attribute :=
  match assoc name m with
  | Some a => Return a
  | None => Raise (AttributeError ("module has no attribute '" ++ name ++ "'"))
  end.

(** Positional arguments go to the first parameters. *)
Fixpoint bind_positional (params : list string) (args : list pyvalue)
  : list (string * pyvalue) :=
  match params, args with
  | p :: params', a :: args' => (p, a) :: bind_positional params' args'
  | _, _ => []
  end.

(** Keyword arguments: each must name a parameter not yet bound. *)
Fixpoint bind_keywords (fname : string) (params : list string)
    (bound : list (string * pyvalue)) (kwargs : list (string * pyvalue))
  : outcome (list (string * pyvalue)) :=
  match kwargs with
  | [] => Return bound
  | (k, v) :: rest =>
      if negb (bool_decide (k ∈ params)) then
        Raise (TypeError (fname ++ "() got an unexpected keyword argument '" ++ k ++ "'"))
      else if bool_decide (is_Some (assoc k bound)) then
        Raise (TypeError (fname ++ "() got multiple values for argument '" ++ k ++ "'"))
      else bind_keywords fname params (bound ++ [(k, v)]) rest
  end.

(** A call of a [def] that takes neither extra positional nor extra keyword
    arguments. *)
Definition bind_arguments (f : pyfunction) (args : list pyvalue)
    (kwargs : list (string * pyvalue)) : outcome (list (string * pyvalue)) :=
  bound ← bind_keywords (def_name f) (parameters f)
                         (bind_positional (parameters f) args) kwargs;
  if (length (parameters f) <? length args)%nat then
    Raise (TypeError (def_name f ++ "() takes fewer positional arguments"))
  else if forallb (fun p => bool_decide (is_Some (assoc p bound)))
                  (take (length (parameters f) - defaults f) (parameters f)) then
    Return bound
  else
    Raise (TypeError (def_name f ++ "() missing required positional arguments")).

Definition call (a : attribute) (args : list pyvalue)
    (kwargs : list (string * pyvalue)) : outcome Query :=
  match a with
  | attr_def f => bound ← bind_arguments f args kwargs; body f bound
  | attr_other => Raise (TypeError "not a function of the database layer")
  end.

(** An optional integer argument whose default is None. *)
Definition optional_int (name : string) (bound : list (string * pyvalue))
  : outcome (option N) :=
  match assoc name bound with
  | None | Some py_None => Return None
  | Some (py_int n) => Return (Some n)
  | Some _ => Raise (ProgrammingError name)
  end.

(** def get_points(session) *)
Definition def_get_points : pyfunction :=
  {| def_name := "get_points";
     parameters := ["session"];
     defaults := 0;
     body := fun _ => Return get_points |}.

(** def limit_offset_query(query, limit=None, offset=None) *)
Definition def_limit_offset_query : pyfunction :=
  {| def_name := "limit_offset_query";
     parameters := ["query"; "limit"; "offset"];
     defaults := 2;
     body := fun bound =>
       match assoc "query" bound with
       | Some (py_query query) =>
           limit ← optional_int "limit" bound;
           offset ← optional_int "offset" bound;
           Return (limit_offset_query query limit offset)
       | _ => Raise (AttributeError "object has no attribute 'limit'")
       end |}.

(** The names of the module emissionsapi.db: its imports, globals, classes
    and functions.  web.py calls [get_points] and [limit_offset_query], and
    looks up [get_daily]. *)
Definition emissionsapi_db : module :=
  [ ("wraps", attr_other); ("logging", attr_other); ("sqlalchemy", attr_other);
    ("and_", attr_other); ("or_", attr_other); ("create_engine", attr_other);
    ("Column", attr_other); ("DateTime", attr_other); ("Integer", attr_other);
    ("Float", attr_other); ("String", attr_other); ("PickleType", attr_other);
    ("declarative_base", attr_other); ("sessionmaker", attr_other);
    ("text", attr_other); ("geoalchemy2", attr_other); ("config", attr_other);
    ("logger", attr_other); ("database", attr_other); ("__session__", attr_other);
    ("Base", attr_other); ("File", attr_other); ("Cache", attr_other);
    ("Carbonmonoxide", attr_other); ("with_session", attr_other);
    ("get_session", attr_other); ("insert", attr_other);
    ("get_points", attr_def def_get_points);
    ("get_averages", attr_other); ("get_statistics", attr_other);
    ("filter_query", attr_other);
    ("limit_offset_query", attr_def def_limit_offset_query) ].

End EmissionsAPI.

(** ** web.py *)

(** What web.py imports from outside the two files: [dateutil.parser.parse],
    [emissionsapi.utils] and the table of [emissionsapi.country_bounding_boxes]
    (country code to name and bounding box); [strftime_Ymd] is
    [datetime.strftime] with the format of [get_daily]. *)
Class Imports `{Engine} : Type := {
  dateutil_parser_parse : string -> outcome datetime;
  bounding_box_to_wkt : list float -> outcome string;
  polygon_to_wkt : list float -> outcome string;
  country_bounding_boxes : gmap string (string * list float);
  strftime_Ymd : datetime -> string
}.

Section Web.
Context `{Imports}.

(** geojson.Feature with a Point geometry and the two properties. *)
Record Feature : Type := {
  Feature_longitude : option float;
  Feature_latitude : option float;
  Feature_carbonmonoxide : option float;
  Feature_timestamp : option datetime
}.

(** One dictionary of the list [get_daily] returns. *)
Record DailyItem : Type := {
  value_count : cell;
  value_average : cell;
  value_standard_deviation : cell;
  value_min : cell;
  value_max : cell;
  time_start : cell;
  time_end : cell;
  time_day : string
}.

(** What a handler returns to the framework. *)
Inductive response : Type :=
| FeatureCollection (features : list Feature)
| DailyList (items : list DailyItem)
| ErrorResponse (message : string) (status : Z).   (* the pair (message, 400) *)

Definition endpoint : Type := Server -> outcome response * Server.

(** One turn of the loop of [parse_date]: the key is absent, parsed, or
    answered with 'Invalid key', 400; only [ValueError] is caught. *)
Definition parse_key (key : string) (date : option string)
  : outcome (response + option datetime) :=
  match date with
  | None => Return (inr None)
  | Some d =>
      match dateutil_parser_parse d with
      | Return t => Return (inr (Some t))
      | Raise ValueError => Return (inl (ErrorResponse ("Invalid " ++ key) 400))
      | Raise e => Raise e
      end
  end.

(** parse_date('begin', 'end') around [f]. *)
Definition parse_date (f : option datetime -> option datetime -> endpoint)
    (begin end_ : option string) : endpoint :=
  fun srv =>
    match parse_key "begin" begin with
    | Raise e => (Raise e, srv)
    | Return (inl r) => (Return r, srv)
    | Return (inr begin') =>
        match parse_key "end" end_ with
        | Raise e => (Raise e, srv)
        | Return (inl r) => (Return r, srv)
        | Return (inr end') => f begin' end' srv
        end
    end.

(** The first part of [get_data] and of [get_daily]: the WKT polygon of the
    request, or the response that rejects it. *)
Definition parse_spatial (country : option string) (geoframe polygon : option (list float))
  : outcome (response + option string) :=
  match geoframe with
  | Some frame =>
      (* Parse parameter geoframe *)
      match bounding_box_to_wkt frame with
      | Return wkt => Return (inr (Some wkt))
      | Raise ValueError => Return (inl (ErrorResponse "Invalid geoparam" 400))
      | Raise e => Raise e
      end
  | None =>
      match country with
      | Some code =>
          (* parse parameter country *)
          match country_bounding_boxes !! code with
          | None => Return (inl (ErrorResponse "Unknown country code." 400))
          | Some box =>
              wkt ← bounding_box_to_wkt box.2;
              Return (inr (Some wkt))
          end
      | None =>
          match polygon with
          | Some points =>
              (* parse parameter polygon *)
              match polygon_to_wkt points with
              | Return wkt => Return (inr (Some wkt))
              | Raise (RESTParamError err) => Return (inl (ErrorResponse err 400))
              | Raise e => Raise e
              end
          | None => Return (inr None)
          end
      end
  end.

Definition lift {A} (o : outcome A) : M A :=
  match o with Return a => ret a | Raise e => raise e end.

Definition optional_str (w : option string) : pyvalue :=
  match w with Some s => py_str s | None => py_None end.

Definition optional_datetime (t : option datetime) : pyvalue :=
  match t with Some d => py_datetime d | None => py_None end.

Definition optional_N (n : option N) : pyvalue :=
  match n with Some k => py_int k | None => py_None end.

(** for obj, longitude, latitude in query *)
Definition feature_of_row (row : list cell) : outcome Feature :=
  match row with
  | [cell_entity obj; cell_float longitude; cell_float latitude] =>
      Return {| Feature_longitude := longitude;
                Feature_latitude := latitude;
                Feature_carbonmonoxide := Carbonmonoxide_value obj;
                Feature_timestamp := Carbonmonoxide_timestamp obj |}
  | [_; _; _] => Raise (AttributeError "value")
  | _ => Raise ValueError
  end.

(** for count, avg, stddev, min_val, max_val, min_time, max_time, day in query *)
Definition item_of_row (row : list cell) : outcome DailyItem :=
  match row with
  | [count; avg; stddev; min_val; max_val; min_time; max_time; day] =>
      match day with
      | cell_datetime (Some d) =>
          Return {| value_count := count;
                    value_average := avg;
                    value_standard_deviation := stddev;
                    value_min := min_val;
                    value_max := max_val;
                    time_start := min_time;
                    time_end := max_time;
                    time_day := strftime_Ymd d |}
      | _ => Raise (AttributeError "strftime")
      end
  | _ => Raise ValueError
  end.

(** The body of [get_data], on the session [with_session] hands it.  [db]
    is the module object [emissionsapi.db]. *)
Definition get_data_body (db : module) (country : option string)
    (geoframe polygon : option (list float)) (begin end_ : option datetime)
    (limit offset : option N) : M response :=
  parsed ← lift (parse_spatial country geoframe polygon);
  match parsed with
  | inl rejection => ret rejection
  | inr wkt_polygon =>
      (* Iterate through database query *)
      f ← lift (getattr db "get_points");
      query ← lift (call f [py_session]
                         [("polygon", optional_str wkt_polygon);
                          ("begin", optional_datetime begin);
                          ("end", optional_datetime end_)]);
      (* Apply limit and offset *)
      g ← lift (getattr db "limit_offset_query");
      query ← lift (call g [py_query query]
                         [("limit", optional_N limit);
                          ("offset", optional_N offset)]);
      rows ← Query_iter query;
      features ← lift (mapM feature_of_row rows);
      (* Create feature collection from gathered points *)
      ret (FeatureCollection features)
  end.

(** The body of [get_daily]. *)
Definition get_daily_body (db : module) (country : option string)
    (geoframe polygon : option (list float)) (begin end_ : option datetime)
    (limit offset : option N) : M response :=
  parsed ← lift (parse_spatial country geoframe polygon);
  match parsed with
  | inl rejection => ret rejection
  | inr wkt_polygon =>
      f ← lift (getattr db "get_daily");
      query ← lift (call f [py_session]
                         [("polygon", optional_str wkt_polygon);
                          ("begin", optional_datetime begin);
                          ("end", optional_datetime end_)]);
      (* Apply limit and offset *)
      g ← lift (getattr db "limit_offset_query");
      query ← lift (call g [py_query query]
                         [("limit", optional_N limit);
                          ("offset", optional_N offset)]);
      rows ← Query_iter query;
      items ← lift (mapM item_of_row rows);
      ret (DailyList items)
  end.

(** The endpoints as decorated: [parse_date] outside, [with_session] inside. *)
Definition get_data (db : module) (country : option string)
    (geoframe polygon : option (list float)) (begin end_ : option string)
    (limit offset : option N) : endpoint :=
  parse_date
    (fun begin' end' =>
       with_session (get_data_body db country geoframe polygon begin' end' limit offset))
    begin end_.

Definition get_daily (db : module) (country : option string)
    (geoframe polygon : option (list float)) (begin end_ : option string)
    (limit offset : option N) : endpoint :=
  parse_date
    (fun begin' end' =>
       with_session (get_daily_body db country geoframe polygon begin' end' limit offset))
    begin end_.

End Web.

(** ** The specification's words

    The predicates the properties below are stated with. *)

(** The entry ends at or before the earliest invalidated instant. *)
Definition ends_before (earliest : Z) (c : Cache) : Prop :=
  exists e, Cache_end c = Some e /\ e <= earliest.

(** The entry begins after the latest invalidated instant. *)
Definition begins_after (latest : Z) (c : Cache) : Prop :=
  exists b, Cache_begin c = Some b /\ b > latest.

(** The covered interval of the entry lies in the window from [lo] to [hi]. *)
Definition lies_within (c : Cache) (lo hi : Z) : Prop :=
  exists b e, Cache_begin c = Some b /\ Cache_end c = Some e /\ lo <= b /\ e <= hi.

(** Two half-open windows share no instant. *)
Definition halfopen_disjoint (a1 a2 b1 b2 : Z) : Prop :=
  forall t, ~ (a1 <= t < a2 /\ b1 <= t < b2).

(** The temporal clause in the words of the specification: begin inclusive,
    end exclusive, an absent bound no constraint. *)
Definition in_bounds (begin end_ : option Z) (t : option Z) : bool :=
  match t with
  | None =>
      match begin, end_ with None, None => true | _, _ => false end
  | Some t =>
      match begin with Some b => b <=? t | None => true end
      && match end_ with Some e => t <? e | None => true end
  end.

Section Specification.
Context `{Engine}.

(** The spatial clause in the words of the specification: proximity when
    a distance is given, containment otherwise. *)
Definition spatial_holds (wkt : option string) (distance : option float)
    (g : option geometry) : bool :=
  match wkt with
  | None => true
  | Some w =>
      match g with
      | None => false
      | Some g =>
          match distance with
          | Some d => ST_DWITHIN g w d
          | None => ST_WITHIN g w
          end
      end
  end.

(** The row [get_points] yields for a point. *)
Definition point_row (p : Carbonmonoxide) : list cell :=
  [cell_entity p;
   cell_float (ST_X <$> Carbonmonoxide_geom p);
   cell_float (ST_Y <$> Carbonmonoxide_geom p)].

(** The tuple of the statistics for the group of interval start [t]. *)
Definition statistics_row (trunc : Z -> Z) (rows : list Carbonmonoxide)
    (t : option Z) : list cell :=
  let g := group_of trunc t rows in
  [cell_count (Z.of_nat (length (omap Carbonmonoxide_value g)));
   cell_float (avg (omap Carbonmonoxide_value g));
   cell_float (stddev (omap Carbonmonoxide_value g));
   cell_float (float_min (omap Carbonmonoxide_value g));
   cell_float (float_max (omap Carbonmonoxide_value g));
   cell_datetime (datetime_min (omap Carbonmonoxide_timestamp g));
   cell_datetime (datetime_max (omap Carbonmonoxide_timestamp g));
   cell_datetime t].

(** A handler's result carries no data: it is an exception or a rejection
    with status 400. *)
Definition no_data `{Engine} (o : outcome response) : Prop :=
  match o with
  | Raise _ => True
  | Return (ErrorResponse _ status) => status = 400
  | Return _ => False
  end.

End Specification.

Section FurtherSpecification.
Context `{Engine}.

(** The code [m] publishes nothing: the stored data are after it what they
    were before. *)
Definition keeps_store {A} (m : M A) : Prop :=
  forall s, disk (server (m s).2) = disk (server s).

(** The primary keys of the points a session sees are distinct and not
    beyond the sequence. *)
Definition primary_keys_fresh (s : Session) : Prop :=
  NoDup (Carbonmonoxide_id <$> carbonmonoxide (txn s))
  /\ Forall (fun p => Carbonmonoxide_id p <= carbonmonoxide_id_seq (server s))
            (carbonmonoxide (txn s)).

(** The tuple of [get_averages] for the day [t], in the words of its
    docstring: the daily average, the maximal timestamp, the minimal
    timestamp and the day. *)
Definition averages_row (rows : list Carbonmonoxide) (t : option Z) : list cell :=
  let g := group_of date t rows in
  [cell_float (avg (omap Carbonmonoxide_value g));
   cell_datetime (datetime_max (omap Carbonmonoxide_timestamp g));
   cell_datetime (datetime_min (omap Carbonmonoxide_timestamp g));
   cell_datetime t].

(** The count a tuple of the statistics starts with, and the counts of a
    result added up. *)
Definition row_count (row : list cell) : Z :=
  match row with cell_count n :: _ => n | _ => 0 end.

Definition total_count (result : list (list cell)) : Z :=
  foldr (fun row acc => row_count row + acc) 0 result.


End FurtherSpecification.

(** ** get_session, with its lazy start

    [get_session] creates the engine, the sessionmaker and the tables on its
    first call and keeps the sessionmaker in the module global
    [__session__].  Here the process is what that concerns: whether the
    global is set, whether the tables exist, and the failures the storage is
    going to have. *)
Module Startup.

Record Process : Type := {
  session_factory : bool;             (* __session__ is set *)
  tables : bool;                      (* Base.metadata.create_all has run *)
  failures : list (option exn)
}.

(** get_session(): [create_engine] and [sessionmaker] connect to nothing;
    [create_all] is the one storage operation, and it comes after the
    assignment to [__session__]. *)
Definition get_session (p : Process) : outcome unit * Process :=
  if negb (session_factory p) then
    (* Engine = create_engine(...); __session__ = sessionmaker(bind=Engine) *)
    (* Base.metadata.create_all(Engine) *)
    match failures p with
    | Some e :: rest =>
        (Raise e, {| session_factory := true; tables := tables p; failures := rest |})
    | None :: rest =>
        (Return tt, {| session_factory := true; tables := true; failures := rest |})
    | [] =>
        (Return tt, {| session_factory := true; tables := true; failures := [] |})
    end
  else
    (* return __session__() *)
    (Return tt, p).

(** [n] calls in a row; the outcomes, first call first. *)
Fixpoint get_sessions (n : nat) (p : Process) : list (outcome unit) * Process :=
  match n with
  | O => ([], p)
  | S n' =>
      let r := get_session p in
      let rs := get_sessions n' r.2 in
      (r.1 :: rs.1, rs.2)
  end.

End Startup.

(** ** Two engines to run the definitions on

    Values and coordinates are integers; timestamps count days here, and a
    week has seven of them.  [heap_engine] scans a table in the order of
    insertion; [circular_engine] starts a scan after the first row and wraps
    around, as a scan that joins another one in progress does. *)

Definition int_sum (l : list Z) : Z := foldr Z.add 0 l.

Definition int_avg (l : list Z) : option Z :=
  match l with [] => None | _ => Some (int_sum l / Z.of_nat (length l)) end.

Definition int_stddev (l : list Z) : option Z :=
  match l with
  | [] | [_] => None
  | _ => Some (Z.sqrt (int_sum ((fun v => (v * Z.of_nat (length l) - int_sum l) ^ 2) <$> l)
                       / (Z.of_nat (length l) ^ 2 * (Z.of_nat (length l) - 1))))
  end.

Definition int_date_trunc (field : string) : option (Z -> Z) :=
  if decide (field = "day") then Some (fun t => t)
  else if decide (field = "week") then Some (fun t => t / 7 * 7)
  else None.

Definition in_box (g : Z * Z) (wkt : string) : bool :=
  if decide (wkt = "BOX(0 0,10 10)") then
    (0 <? g.1) && (g.1 <? 10) && (0 <? g.2) && (g.2 <? 10)
  else false.

Definition near_box (g : Z * Z) (wkt : string) (d : Z) : bool :=
  if decide (wkt = "BOX(0 0,10 10)") then
    (- d <=? g.1) && (g.1 <=? 10 + d) && (- d <=? g.2) && (g.2 <=? 10 + d)
  else false.

Definition circular {A} (l : list A) : list A :=
  match l with [] => [] | x :: rest => rest ++ [x] end.

Lemma circular_perm (A : Type) (l : list A) : Permutation (circular l) l.
Proof.
  destruct l as [|x rest]; simpl; [constructor|].
  symmetry. apply Permutation_cons_append.
Defined.

Lemma heap_perm (A : Type) (l : list A) : Permutation l l.
Proof. apply Permutation_refl. Defined.

Definition int_engine (scan : forall A : Type, list A -> list A)
    (scan_perm : forall (A : Type) (l : list A), Permutation (scan A l) l) : Engine :=
  {| float := Z;
     geometry := Z * Z;
     ST_MakePoint := fun x y => (x, y);
     ST_X := fst;
     ST_Y := snd;
     ST_WITHIN := in_box;
     ST_DWITHIN := near_box;
     date_trunc := int_date_trunc;
     date := fun t => t;
     avg := int_avg;
     stddev := int_stddev;
     float_min := datetime_min;
     float_max := datetime_max;
     scan_order := scan;
     scan_order_perm := scan_perm |}.

Definition heap_engine : Engine := int_engine (fun A l => l) heap_perm.

Definition circular_engine : Engine := int_engine (@circular) circular_perm.

(** Three measurements, inserted in this order into an empty table whose
    sequence starts at 1: on days 1, 3 and 9, the last one outside the box. *)
Definition three_data (E : Engine) (v : Z -> float) : list datum :=
  [ {| datum_value := Some (v 10); datum_timestamp := Some 1;
       datum_longitude := Some (v 5); datum_latitude := Some (v 5) |};
    {| datum_value := Some (v 30); datum_timestamp := Some 3;
       datum_longitude := Some (v 6); datum_latitude := Some (v 6) |};
    {| datum_value := Some (v 20); datum_timestamp := Some 9;
       datum_longitude := Some (v 50); datum_latitude := Some (v 50) |} ].

Definition heap_points : list (@Carbonmonoxide heap_engine) :=
  new_rows 1 (three_data heap_engine (fun z => z)).

(** A float field of a result row of the heap engine. *)
Definition int_cell (v : option Z) : @cell heap_engine := @cell_float heap_engine v.

Definition circular_points : list (@Carbonmonoxide circular_engine) :=
  new_rows 1 (three_data circular_engine (fun z => z)).

(** A cache with one entry per shape of interval. *)
Definition sample_cache : gmap string Cache :=
  <["/data?begin=3&end=5" := {| Cache_begin := Some 3; Cache_end := Some 5; Cache_response := "a" |}]>
  (<["/data?begin=6" := {| Cache_begin := Some 6; Cache_end := None; Cache_response := "b" |}]>
  (<["/data?end=1" := {| Cache_begin := None; Cache_end := Some 1; Cache_response := "c" |}]>
  (<["/data" := {| Cache_begin := None; Cache_end := None; Cache_response := "d" |}]> ∅))).

Definition sample_server (E : Engine) (fs : list (option exn)) : Server :=
  {| disk := {| carbonmonoxide := []; file := ∅; cache := sample_cache |};
     carbonmonoxide_id_seq := 0;
     faults := fs |}.

(** A session on the sample store, the storage in good health. *)
Definition touching_session : Session :=
  get_session (sample_server heap_engine []).

(** The store with the three points and nothing else. *)
Definition served_server : @Server heap_engine :=
  {| disk := {| carbonmonoxide := heap_points; file := ∅; cache := ∅ |};
     carbonmonoxide_id_seq := 3;
     faults := [] |}.

(** Imports to run the endpoints on: dates are "day 1", "day 3" and
    "day 9"; a bounding box has four numbers, a polygon an even count. *)
Definition sample_imports : @Imports heap_engine :=
  {| dateutil_parser_parse := fun d =>
       if decide (d = "day 1") then Return 1
       else if decide (d = "day 3") then Return 3
       else if decide (d = "day 9") then Return 9
       else Raise ValueError;
     bounding_box_to_wkt := fun box =>
       match box with
       | [_; _; _; _] => Return "BOX(0 0,10 10)"
       | _ => Raise (TypeError "bounding_box_to_wkt() takes 4 positional arguments")
       end;
     polygon_to_wkt := fun points =>
       if Nat.even (length points) then Return "BOX(0 0,10 10)"
       else Raise (RESTParamError "Number of elements has to be even");
     country_bounding_boxes := {[ "DE" := ("Germany", [5; 47; 15; 55]) ]};
     strftime_Ymd := fun d =>
       if decide (d = 1) then "1970-01-02"
       else if decide (d = 3) then "1970-01-04"
       else "1970-01-10" |}.

(** Were [get_points] to take the three keywords, the request would be
    answered: the database module with such a [get_points] in front. *)
Definition def_get_points_filtered : @pyfunction heap_engine :=
  {| def_name := "get_points";
     parameters := ["session"; "polygon"; "begin"; "end"];
     defaults := 3;
     body := fun bound =>
       Return (filter_query get_points
                 (match assoc "polygon" bound with Some (py_str w) => Some w | _ => None end)
                 None
                 (match assoc "begin" bound with Some (py_datetime t) => Some t | _ => None end)
                 (match assoc "end" bound with Some (py_datetime t) => Some t | _ => None end)) |}.

(** * Properties *)

(** ** The cache: which entries an invalidation deletes *)

Lemma invalidate_filter_holds (earliest latest : Z) (c : Cache) :
  sql_holds (invalidate_filter earliest latest c) = true
  <-> ~ (ends_before earliest c \/ begins_after latest c).
Proof.
  unfold invalidate_filter, ends_before, begins_after.
  destruct c as [[b|] [e|] r]; simpl;
    repeat match goal with
           | |- context [(?x <=? ?y)] => destruct (Z.leb_spec x y)
           | |- context [(?x >? ?y)] => destruct (Z.gtb_spec x y)
           end; simpl;
    (split; [try discriminate; intros _ [(x & [=] & ?)|(x & [=] & ?)]; subst; lia
            |try reflexivity; intros Hn; exfalso; apply Hn; eauto with lia]).
Qed.

Section CacheProperties.
Context `{Engine}.

Lemma delete_where_lookup (crit : Cache -> option bool) (t : gmap string Cache)
    (k : string) (c : Cache) :
  t !! k = Some c ->
  delete_where crit t !! k = if sql_holds (crit c) then None else Some c.
Proof.
  intros Hk. unfold delete_where.
  destruct (sql_holds (crit c)) eqn:Hc.
  - apply map_lookup_filter_None. right. intros c' Hk'. simpl.
    rewrite Hk in Hk'. injection Hk' as <-. congruence.
  - apply map_lookup_filter_Some. split; [done|]. simpl. done.
Qed.

Lemma delete_where_idemp (crit : Cache -> option bool) (t : gmap string Cache) :
  delete_where crit (delete_where crit t) = delete_where crit t.
Proof.
  unfold delete_where. rewrite map_filter_filter.
  apply map_filter_ext. intros k c _. simpl. tauto.
Qed.

(** A run of [Cache_invalidate] that returns: it has deleted by the filter
    and committed. *)
Lemma Cache_invalidate_returns (earliest latest : Z) (s s' : Session) :
  Cache_invalidate earliest latest s = (Return tt, s') ->
  txn s' = set_cache (delete_where (invalidate_filter earliest latest) (cache (txn s))) (txn s)
  /\ disk (server s') = txn s'.
Proof.
  unfold Cache_invalidate, Query_delete, commit, storage_op, get_state, put_state,
    mbind, M_bind, bind, ret, raise.
  destruct s as [[d n fs] t]; simpl.
  destruct fs as [|[e|] [|[e'|] fs']]; simpl; intros [= <-]; done.
Qed.

(** A run of [Cache_invalidate] either returns or raises what the storage
    raised, and then the stored data are the ones from before. *)
Lemma Cache_invalidate_raises (earliest latest : Z) (s : Session) (e : exn)
    (rest : list (option exn)) :
  faults (server s) = Some e :: rest \/ faults (server s) = None :: Some e :: rest ->
  (Cache_invalidate earliest latest s).1 = Raise e
  /\ disk (server (Cache_invalidate earliest latest s).2) = disk (server s)
  /\ faults (server (Cache_invalidate earliest latest s).2) = rest.
Proof.
  unfold Cache_invalidate, Query_delete, commit, storage_op, get_state, put_state,
    mbind, M_bind, bind, ret, raise.
  destruct s as [[d n fs] t]; simpl.
  intros [-> | ->]; simpl; done.
Qed.

(** C1 (amended): after [Cache.invalidate(session, earliest, latest)] an
    entry with covered interval [b, e) is gone if and only if NOT (e is
    non-null and e <= earliest, or b is non-null and b > latest), and is
    unchanged otherwise; a null bound never pleads for the entry (with two
    null bounds it always goes, with one the other bound alone decides); and
    an entry whose interval lies within a window from [lo] to [hi] that ends
    at or before [earliest] or begins after [latest] is never deleted.  Both
    bounds of the invalidation are inclusive. *)
Theorem invalidate_deletes_exactly_overlapping (earliest latest : Z)
    (s s' : Session) (k : string) (c : Cache) :
  Cache_invalidate earliest latest s = (Return tt, s') ->
  cache (txn s) !! k = Some c ->
  (cache (disk (server s')) !! k = None
   <-> ~ (ends_before earliest c \/ begins_after latest c))
  /\ (cache (disk (server s')) !! k = Some c
      <-> (ends_before earliest c \/ begins_after latest c))
  /\ (Cache_begin c = None -> Cache_end c = None ->
      cache (disk (server s')) !! k = None)
  /\ (Cache_begin c = None ->
      (cache (disk (server s')) !! k = None <-> ~ ends_before earliest c))
  /\ (Cache_end c = None ->
      (cache (disk (server s')) !! k = None <-> ~ begins_after latest c))
  /\ (forall lo hi, lies_within c lo hi -> hi <= earliest \/ lo > latest ->
      cache (disk (server s')) !! k = Some c).
Proof.
  intros Hrun Hk.
  destruct (Cache_invalidate_returns _ _ _ _ Hrun) as [Ht Hd].
  rewrite Hd, Ht. simpl.
  rewrite (delete_where_lookup _ _ _ _ Hk).
  pose proof (invalidate_filter_holds earliest latest c) as Hf.
  destruct (sql_holds (invalidate_filter earliest latest c)) eqn:Hc.
  - assert (Hn : ~ (ends_before earliest c \/ begins_after latest c))
      by (apply Hf; reflexivity).
    split_and!.
    + done.
    + split; [discriminate|tauto].
    + done.
    + intros _. split; [tauto|done].
    + intros _. split; [tauto|done].
    + intros lo hi (b & e & Hb & He & Hlo & Hhi) Hw. exfalso. apply Hn.
      unfold ends_before, begins_after.
      destruct Hw; [left; exists e | right; exists b]; split; try done; lia.
  - assert (Hy : ends_before earliest c \/ begins_after latest c).
    { destruct c as [[b|] [e|] r]; unfold ends_before, begins_after;
        unfold invalidate_filter in Hc; simpl in *;
        repeat match type of Hc with
               | context [(?x <=? ?y)] => destruct (Z.leb_spec x y)
               | context [(?x >? ?y)] => destruct (Z.gtb_spec x y)
               end; simpl in Hc; try discriminate; eauto with lia. }
    split_and!.
    + split; [discriminate|tauto].
    + done.
    + intros Hb He. destruct Hy as [(x & Hx & _)|(x & Hx & _)]; congruence.
    + intros Hb. split; [discriminate|]. intros Hn. exfalso. apply Hn.
      destruct Hy as [|(x & Hx & _)]; [done|congruence].
    + intros He. split; [discriminate|]. intros Hn. exfalso. apply Hn.
      destruct Hy as [(x & Hx & _)|]; [congruence|done].
    + done.
Qed.

(** C6: invalidating the same window twice in succession leaves the cache,
    in the session and in the store, as invalidating it once does. *)
Theorem invalidate_idempotent (earliest latest : Z) (s s1 s2 : Session) :
  Cache_invalidate earliest latest s = (Return tt, s1) ->
  Cache_invalidate earliest latest s1 = (Return tt, s2) ->
  cache (txn s2) = cache (txn s1)
  /\ cache (disk (server s2)) = cache (disk (server s1))
  /\ txn s2 = txn s1 /\ disk (server s2) = disk (server s1).
Proof.
  intros H1 H2.
  destruct (Cache_invalidate_returns _ _ _ _ H1) as [Ht1 Hd1].
  destruct (Cache_invalidate_returns _ _ _ _ H2) as [Ht2 Hd2].
  assert (Ht : txn s2 = txn s1).
  { rewrite Ht2, Ht1. unfold set_cache. simpl.
    rewrite delete_where_idemp. reflexivity. }
  rewrite Hd2, Hd1, Ht. done.
Qed.

(** C2 (amended): [Cache.invalidate] catches nothing.  When its DELETE or
    its commit fails, the exception of the storage is raised to the caller;
    [with_session] rolls the session back, closes it and raises the exception
    again, and the stored data are as before. *)
Theorem invalidate_failure_propagates (earliest latest : Z) (srv : Server)
    (e : exn) (rest : list (option exn)) :
  faults srv = Some e :: rest \/ faults srv = None :: Some e :: rest ->
  (Cache_invalidate earliest latest (get_session srv)).1 = Raise e
  /\ (with_session (Cache_invalidate earliest latest) srv).1 = Raise e
  /\ disk (with_session (Cache_invalidate earliest latest) srv).2 = disk srv.
Proof.
  intros Hf.
  destruct (Cache_invalidate_raises earliest latest (get_session srv) e rest Hf)
    as (Hr & Hd & _).
  split; [exact Hr|].
  unfold with_session.
  destruct (Cache_invalidate earliest latest (get_session srv)) as [o s1] eqn:Hrun.
  simpl in Hr, Hd. subst o. simpl. split; [reflexivity|exact Hd].
Qed.

End CacheProperties.

(** The entry from 3 to 5 lies in the window from 3 to 5, which shares no
    instant with the window from 1 to 3; invalidate(1, 3) deletes it. *)
Lemma touching_window_deleted :
  halfopen_disjoint 1 3 3 5
  /\ lies_within {| Cache_begin := Some 3; Cache_end := Some 5; Cache_response := "a" |} 3 5
  /\ cache (txn touching_session) !! "/data?begin=3&end=5"
     = Some {| Cache_begin := Some 3; Cache_end := Some 5; Cache_response := "a" |}
  /\ (Cache_invalidate 1 3 touching_session).1 = Return tt
  /\ cache (disk (server (Cache_invalidate 1 3 touching_session).2))
       !! "/data?begin=3&end=5" = None.
Proof.
  split; [intros t; lia|].
  split; [exists 3, 5; repeat split; lia|].
  split; [reflexivity|].
  split; [reflexivity|].
  vm_compute. reflexivity.
Qed.

Lemma invalidate_deletes_exactly_overlapping_witness :
  cache (disk (server (Cache_invalidate 1 2 touching_session).2))
    !! "/data?begin=3&end=5"
  = Some {| Cache_begin := Some 3; Cache_end := Some 5; Cache_response := "a" |}.
Proof.
  refine (proj2 (proj2 (proj2 (proj2 (proj2
    (invalidate_deletes_exactly_overlapping (H := heap_engine) 1 2 touching_session
       (Cache_invalidate 1 2 touching_session).2
       "/data?begin=3&end=5"
       {| Cache_begin := Some 3; Cache_end := Some 5; Cache_response := "a" |}
       _ _))))) 3 5 _ _).
  - vm_compute. reflexivity.
  - vm_compute. reflexivity.
  - exists 3, 5. repeat split; lia.
  - right. lia.
Defined.

Lemma invalidate_idempotent_witness :
  cache (txn (Cache_invalidate 1 3 (Cache_invalidate 1 3 touching_session).2).2)
  = cache (txn (Cache_invalidate 1 3 touching_session).2).
Proof.
  refine (proj1 (invalidate_idempotent (H := heap_engine) 1 3 touching_session
                   (Cache_invalidate 1 3 touching_session).2
                   (Cache_invalidate 1 3 (Cache_invalidate 1 3 touching_session).2).2
                   _ _)).
  - vm_compute. reflexivity.
  - vm_compute. reflexivity.
Defined.

(** The storage fails on the DELETE: the caller of [Cache.invalidate] gets
    the exception. *)
Lemma invalidate_raises_OperationalError :
  (Cache_invalidate 1 3 (get_session (sample_server heap_engine [Some OperationalError]))).1
  = Raise OperationalError
  /\ returns (Cache_invalidate 1 3
               (get_session (sample_server heap_engine [Some OperationalError]))).1 = false
  /\ (with_session (Cache_invalidate 1 3)
        (sample_server heap_engine [Some OperationalError])).1 = Raise OperationalError.
Proof. repeat split. Qed.

Lemma invalidate_failure_propagates_witness :
  (with_session (Cache_invalidate 1 3)
     (sample_server heap_engine [None; Some OperationalError])).1 = Raise OperationalError.
Proof.
  refine (proj1 (proj2 (invalidate_failure_propagates (H := heap_engine) 1 3
            (sample_server heap_engine [None; Some OperationalError])
            OperationalError [] _))).
  right. reflexivity.
Defined.

(** ** Queries: filters, pagination, statistics *)

Section QueryProperties.
Context `{Engine}.

Lemma sql_holds_and (a b : option bool) :
  sql_holds (sql_and a b) = sql_holds a && sql_holds b.
Proof. destruct a as [[]|], b as [[]|]; reflexivity. Qed.

Lemma where_holds_app (cs : list criterion) (c : criterion) (p : Carbonmonoxide) :
  where_holds (cs ++ [c]) p = where_holds cs p && sql_holds (eval_criterion c p).
Proof.
  unfold where_holds. induction cs as [|c' cs IH]; simpl.
  - rewrite sql_holds_and. destruct (sql_holds (eval_criterion c p)); reflexivity.
  - rewrite !sql_holds_and, IH. rewrite andb_assoc. reflexivity.
Qed.

Lemma selected_Query_filter (q : Query) (c : criterion) (table : list Carbonmonoxide) :
  selected (Query_filter q c) table
  = filter (fun p => sql_holds (eval_criterion c p)) (selected q table).
Proof.
  unfold selected. simpl. rewrite list_filter_filter.
  apply list_filter_iff. intros p. rewrite where_holds_app.
  rewrite andb_True. tauto.
Qed.

Lemma filter_all {A} (P : A -> Prop) `{forall x, Decision (P x)} (l : list A) :
  (forall x, P x) -> filter P l = l.
Proof.
  intros HP. induction l as [|x l IH]; [reflexivity|].
  rewrite filter_cons_True by apply HP. by rewrite IH.
Qed.

(** What [filter_query] selects: the rows of the query that pass the spatial
    and the temporal clause. *)
Lemma selected_filter_query (q : Query) (wkt : option string) (distance : option float)
    (begin end_ : option Z) (table : list Carbonmonoxide) :
  selected (filter_query q wkt distance begin end_) table
  = filter (fun p => spatial_holds wkt distance (Carbonmonoxide_geom p)
                     && in_bounds begin end_ (Carbonmonoxide_timestamp p))
           (selected q table).
Proof.
  unfold filter_query.
  assert (Hsp : selected
            match wkt with
            | Some w => match distance with
                        | Some d => Query_filter q (ST_DWITHIN_geom w d)
                        | None => Query_filter q (ST_WITHIN_geom w)
                        end
            | None => q
            end table
          = filter (fun p => spatial_holds wkt distance (Carbonmonoxide_geom p))
                   (selected q table)).
  { destruct wkt as [w|]; simpl.
    - destruct distance as [d|]; rewrite selected_Query_filter;
        apply list_filter_iff; intros p; simpl;
        destruct (Carbonmonoxide_geom p) as [g|]; simpl;
        try match goal with |- context [ST_DWITHIN ?a ?b ?c] => destruct (ST_DWITHIN a b c) end;
        try match goal with |- context [ST_WITHIN ?a ?b] => destruct (ST_WITHIN a b) end;
        simpl; tauto.
    - symmetry. apply filter_all. intros p. exact I. }
  set (q1 := match wkt with Some _ => _ | None => _ end) in *.
  destruct begin as [b|], end_ as [e|];
    rewrite ?selected_Query_filter, Hsp, ?list_filter_filter;
    apply list_filter_iff; intros p; simpl;
    destruct (spatial_holds wkt distance (Carbonmonoxide_geom p));
    destruct (Carbonmonoxide_timestamp p) as [t|]; simpl;
    repeat match goal with
           | |- context [(?x <=? ?y)] => destruct (Z.leb_spec x y)
           | |- context [(?x >? ?y)] => destruct (Z.gtb_spec x y)
           | |- context [(?x <? ?y)] => destruct (Z.ltb_spec x y)
           end; simpl; try tauto; try lia.
Qed.

Lemma mapM_Return {A B} (f : A -> B) (l : list A) :
  mapM (fun x => Return (f x)) l = Return (f <$> l).
Proof.
  induction l as [|x l IH]; [reflexivity|].
  simpl. rewrite IH. reflexivity.
Qed.

Lemma filter_query_shape (q : Query) (wkt : option string) (distance : option float)
    (begin end_ : option Z) :
  columns (filter_query q wkt distance begin end_) = columns q
  /\ group_by (filter_query q wkt distance begin end_) = group_by q
  /\ limit (filter_query q wkt distance begin end_) = limit q
  /\ offset (filter_query q wkt distance begin end_) = offset q.
Proof.
  unfold filter_query.
  destruct wkt as [w|], distance as [d|], begin as [b|], end_ as [e|]; simpl; done.
Qed.

Lemma limit_offset_query_shape (q : Query) (l o : option N) :
  columns (limit_offset_query q l o) = columns q
  /\ whereclause (limit_offset_query q l o) = whereclause q
  /\ group_by (limit_offset_query q l o) = group_by q
  /\ limit (limit_offset_query q l o) = match l with Some _ => l | None => limit q end
  /\ offset (limit_offset_query q l o) = match o with Some _ => o | None => offset q end.
Proof. unfold limit_offset_query. destruct l, o; simpl; done. Qed.

(** The rows of a query depend on its columns, WHERE clause and grouping. *)
Lemma Query_rows_ext (q q' : Query) (table : list Carbonmonoxide) :
  columns q = columns q' -> whereclause q = whereclause q' ->
  group_by q = group_by q' ->
  Query_rows q table = Query_rows q' table.
Proof.
  intros Hc Hw Hg. unfold Query_rows, selected. rewrite Hc, Hw, Hg. reflexivity.
Qed.

Lemma Query_all_limit_offset_query (q : Query) (l o : option N)
    (table : list Carbonmonoxide) :
  Query_all (limit_offset_query q l o) table
  = (rows ← Query_rows q table;
     Return (paginate (match l with Some _ => l | None => limit q end)
                      (match o with Some _ => o | None => offset q end) rows)).
Proof.
  destruct (limit_offset_query_shape q l o) as (Hc & Hw & Hg & Hl & Ho).
  unfold Query_all. rewrite Hl, Ho.
  rewrite (Query_rows_ext _ q table Hc Hw Hg). reflexivity.
Qed.

(** An ungrouped query with the columns of [get_points] yields one row per
    selected point. *)
Lemma Query_rows_points (q : Query) (table : list Carbonmonoxide) :
  columns q = [Carbonmonoxide_entity; geom_ST_X; geom_ST_Y] ->
  group_by q = None ->
  Query_rows q table = Return (point_row <$> selected q table).
Proof.
  intros Hc Hg. unfold Query_rows. rewrite Hc, Hg. simpl.
  apply (mapM_Return point_row).
Qed.

(** A query grouped by [date_trunc] with the columns of [get_statistics]
    yields one tuple per group. *)
Lemma Query_rows_statistics (q : Query) (interval_length : string) (trunc : Z -> Z)
    (table : list Carbonmonoxide) :
  columns q = columns (get_statistics interval_length) ->
  group_by q = Some (func_date_trunc interval_length) ->
  date_trunc interval_length = Some trunc ->
  Query_rows q table
  = Return (statistics_row trunc (selected q table)
              <$> group_keys trunc (selected q table)).
Proof.
  intros Hc Hg Ht. unfold Query_rows. rewrite Hc, Hg. simpl. rewrite Ht. simpl.
  rewrite <- (mapM_Return (statistics_row trunc (selected q table))).
  f_equal. unfold statistics_row.
  destruct (decide (func_date_trunc interval_length = func_date_trunc interval_length));
    [reflexivity|congruence].
Qed.






Lemma group_keys_spec (trunc : Z -> Z) (rows : list Carbonmonoxide) (t : option Z) :
  t ∈ group_keys trunc rows
  <-> exists p, p ∈ rows /\ trunc <$> Carbonmonoxide_timestamp p = t.
Proof.
  unfold group_keys. rewrite elem_of_remove_dups, list_elem_of_fmap.
  split; intros (p & ? & ?); exists p; done.
Qed.



(** C7: with a spatial parameter [filter_query] adds exactly one spatial
    criterion: the proximity test ST_DWithin(geom, wkt, distance) when a
    distance is given, the containment test ST_Within(geom, wkt) otherwise;
    the selected points are those that pass that one test. *)
Theorem filter_query_spatial_clause (q : Query) (wkt : string)
    (begin end_ : option Z) (table : list Carbonmonoxide) :
  (forall d, whereclause (filter_query q (Some wkt) (Some d) None None)
             = (whereclause q ++ [ST_DWITHIN_geom wkt d])%list)
  /\ whereclause (filter_query q (Some wkt) None None None)
     = (whereclause q ++ [ST_WITHIN_geom wkt])%list
  /\ (forall d p,
        p ∈ selected (filter_query q (Some wkt) (Some d) begin end_) table
        <-> p ∈ selected (filter_query q None None begin end_) table
            /\ exists g, Carbonmonoxide_geom p = Some g /\ ST_DWITHIN g wkt d = true)
  /\ (forall p,
        p ∈ selected (filter_query q (Some wkt) None begin end_) table
        <-> p ∈ selected (filter_query q None None begin end_) table
            /\ exists g, Carbonmonoxide_geom p = Some g /\ ST_WITHIN g wkt = true)
  /\ (forall d, selected (filter_query q None (Some d) begin end_) table
                = selected (filter_query q None None begin end_) table).
Proof.
  split_and!.
  - reflexivity.
  - reflexivity.
  - intros d p. rewrite !selected_filter_query, !list_elem_of_filter. simpl.
    destruct (Carbonmonoxide_geom p) as [g|]; simpl.
    + destruct (ST_DWITHIN g wkt d) eqn:Hg; simpl.
      * split; [intros ?; split; [done|exists g; done]|tauto].
      * split; [intros [[] _]|intros [_ (g' & [= <-] & Hg')]; congruence].
    + split; [intros [[] _]|intros [_ (g & [=] & _)]].
  - intros p. rewrite !selected_filter_query, !list_elem_of_filter. simpl.
    destruct (Carbonmonoxide_geom p) as [g|]; simpl.
    + destruct (ST_WITHIN g wkt) eqn:Hg; simpl.
      * split; [intros ?; split; [done|exists g; done]|tauto].
      * split; [intros [[] _]|intros [_ (g' & [= <-] & Hg')]; congruence].
    + split; [intros [[] _]|intros [_ (g & [=] & _)]].
  - intros d. rewrite !selected_filter_query. reflexivity.
Qed.

(** C4 (amended): [limit_offset_query] leaves the filters of the query as
    they are and the statement applies OFFSET (rows skipped) and then LIMIT
    (most rows returned) to the rows that passed them, in the order in which
    the engine delivers them: no function sets an ORDER BY.  For a point
    query the page is that slice of the filtered scan; when the engine
    delivers three stored points in the order of insertion, limit=1 and
    offset=1 return the second one. *)
Theorem limit_offset_after_filtering (q : Query) (l o : N)
    (wkt : option string) (distance : option float) (begin end_ : option Z)
    (table : list Carbonmonoxide) :
  selected (limit_offset_query q (Some l) (Some o)) table = selected q table
  /\ Query_all (limit_offset_query q (Some l) (Some o)) table
     = (rows ← Query_rows q table;
        Return (take (N.to_nat l) (drop (N.to_nat o) rows)))
  /\ Query_all (limit_offset_query (filter_query get_points wkt distance begin end_)
                                   (Some l) (Some o)) table
     = Return (take (N.to_nat l) (drop (N.to_nat o)
         (point_row <$>
            filter (fun p => spatial_holds wkt distance (Carbonmonoxide_geom p)
                             && in_bounds begin end_ (Carbonmonoxide_timestamp p))
                   (scan_order table))))
  /\ (forall rows,
        Query_all (limit_offset_query q (Some l) (Some o)) table = Return rows ->
        (length rows <= N.to_nat l)%nat)
  /\ (forall p1 p2 p3,
        scan_order [p1; p2; p3] = [p1; p2; p3] ->
        Query_all (limit_offset_query get_points (Some 1%N) (Some 1%N)) [p1; p2; p3]
        = Return [point_row p2]).
Proof.
  split_and!.
  - reflexivity.
  - rewrite Query_all_limit_offset_query. reflexivity.
  - rewrite Query_all_limit_offset_query.
    destruct (filter_query_shape get_points wkt distance begin end_) as (Hc & Hg & _).
    rewrite Query_rows_points by done. simpl.
    rewrite selected_filter_query. unfold selected.
    replace (filter (fun p => where_holds (whereclause get_points) p) (scan_order table))
      with (scan_order table)
      by (symmetry; apply filter_all; intros p; exact I).
    reflexivity.
  - intros rows. rewrite Query_all_limit_offset_query.
    destruct (Query_rows q table) as [r|e]; simpl; [|discriminate].
    intros [= <-]. rewrite length_take. lia.
  - intros p1 p2 p3 Hscan. rewrite Query_all_limit_offset_query.
    rewrite Query_rows_points by done. unfold selected. simpl.
    rewrite Hscan. reflexivity.
Qed.

(** C8: for a granularity the date truncation accepts, the statistics query
    (with or without filters) has one group per truncated timestamp of the
    selected points and yields for each group the tuple (count, avg, stddev,
    min value, max value, min timestamp, max timestamp, interval start), in
    this order, over the points of that group. *)
Theorem statistics_one_tuple_per_group (interval_length : string) (trunc : Z -> Z)
    (wkt : option string) (distance : option float) (begin end_ : option Z)
    (table : list Carbonmonoxide) (rows : list Carbonmonoxide) :
  date_trunc interval_length = Some trunc ->
  rows = selected (filter_query (get_statistics interval_length)
                                wkt distance begin end_) table ->
  Query_all (filter_query (get_statistics interval_length) wkt distance begin end_) table
  = Return (statistics_row trunc rows <$> group_keys trunc rows)
  /\ (forall t,
        statistics_row trunc rows t
        = [cell_count (Z.of_nat (length (omap Carbonmonoxide_value (group_of trunc t rows))));
           cell_float (avg (omap Carbonmonoxide_value (group_of trunc t rows)));
           cell_float (stddev (omap Carbonmonoxide_value (group_of trunc t rows)));
           cell_float (float_min (omap Carbonmonoxide_value (group_of trunc t rows)));
           cell_float (float_max (omap Carbonmonoxide_value (group_of trunc t rows)));
           cell_datetime (datetime_min (omap Carbonmonoxide_timestamp (group_of trunc t rows)));
           cell_datetime (datetime_max (omap Carbonmonoxide_timestamp (group_of trunc t rows)));
           cell_datetime t])
  /\ NoDup (group_keys trunc rows)
  /\ (forall t,
        t ∈ group_keys trunc rows
        <-> exists p, p ∈ rows /\ trunc <$> Carbonmonoxide_timestamp p = t)
  /\ (forall t p,
        p ∈ group_of trunc t rows
        <-> p ∈ rows /\ trunc <$> Carbonmonoxide_timestamp p = t).
Proof.
  intros Ht ->.
  destruct (filter_query_shape (get_statistics interval_length) wkt distance begin end_)
    as (Hc & Hg & Hl & Ho).
  split_and!.
  - unfold Query_all. rewrite Hl, Ho.
    rewrite (Query_rows_statistics _ interval_length trunc) by done.
    reflexivity.
  - reflexivity.
  - apply NoDup_remove_dups.
  - intros t. apply group_keys_spec.
  - intros t p. unfold group_of. rewrite list_elem_of_filter. tauto.
Qed.

End QueryProperties.

(** The three points on the heap engine: the week of day 1 holds two of
    them, the week of day 9 the third. *)
Example statistics_by_week :
  Query_all (H := heap_engine) (get_statistics "week") heap_points
  = Return [ [cell_count 2; int_cell (Some 20); int_cell (Some 14);
              int_cell (Some 10); int_cell (Some 30);
              cell_datetime (Some 1); cell_datetime (Some 3); cell_datetime (Some 0)];
             [cell_count 1; int_cell (Some 20); int_cell None;
              int_cell (Some 20); int_cell (Some 20);
              cell_datetime (Some 9); cell_datetime (Some 9); cell_datetime (Some 7)] ].
Proof. vm_compute. reflexivity. Qed.

Example statistics_unknown_granularity :
  Query_all (H := heap_engine) (get_statistics "fortnight") heap_points = Raise (DataError "fortnight").
Proof. vm_compute. reflexivity. Qed.

Example points_from_day_3_to_day_9 :
  Carbonmonoxide_id <$> selected (filter_query get_points None None (Some 3) (Some 9))
                                 heap_points
  = [2].
Proof. vm_compute. reflexivity. Qed.


(** The engine that starts its scan after the first row delivers the three
    points in the order 2, 3, 1: limit=1 and offset=1 return the point
    inserted third. *)
Lemma circular_scan_returns_third_point :
  Permutation (scan_order (Engine := circular_engine) circular_points) circular_points
  /\ Carbonmonoxide_id <$> circular_points = [1; 2; 3]
  /\ match circular_points with
     | [_; p2; p3] =>
         Query_all (limit_offset_query get_points (Some 1%N) (Some 1%N)) circular_points
         = Return [point_row p3]
         /\ Query_all (limit_offset_query get_points (Some 1%N) (Some 1%N)) circular_points
            <> Return [point_row p2]
     | _ => False
     end.
Proof.
  split; [apply scan_order_perm|].
  split; [reflexivity|].
  vm_compute. split; [reflexivity|]. intros [=].
Qed.

Lemma limit_offset_after_filtering_witness :
  match heap_points with
  | [p1; p2; p3] =>
      Query_all (limit_offset_query get_points (Some 1%N) (Some 1%N)) [p1; p2; p3]
      = Return [point_row p2]
  | _ => True
  end.
Proof.
  simpl.
  refine (proj2 (proj2 (proj2 (proj2
    (limit_offset_after_filtering (H := heap_engine) get_points 1 1 None None None None
       heap_points)))) _ _ _ _).
  reflexivity.
Defined.

Lemma statistics_one_tuple_per_group_witness :
  Query_all (H := heap_engine)
            (filter_query (get_statistics "week") None None (Some 0) None) heap_points
  = Return (statistics_row (fun t => t / 7 * 7) heap_points
              <$> group_keys (fun t => t / 7 * 7) heap_points).
Proof.
  refine (proj1
    (statistics_one_tuple_per_group (H := heap_engine) "week" (fun t => t / 7 * 7)
       None None (Some 0) None heap_points heap_points _ _)).
  - reflexivity.
  - reflexivity.
Defined.

(** ** Ingest: what other sessions see *)

Section IngestProperties.
Context `{Engine}.

Ltac run_session s :=
  unfold insert, markImported, Cache_invalidate, Query_delete, commit, storage_op,
    get_state, put_state, mbind, M_bind, bind, ret, raise;
  destruct s as [[?d ?n ?fs] ?t]; simpl.

(** [insert] changes the transaction only. *)
Lemma insert_run (data : list datum) (s : Session) :
  disk (server (insert data "carbonmonoxide" s).2) = disk (server s)
  /\ ((exists e, (insert data "carbonmonoxide" s).1 = Raise e)
      \/ ((insert data "carbonmonoxide" s).1 = Return tt
          /\ txn (insert data "carbonmonoxide" s).2
             = {| carbonmonoxide := carbonmonoxide (txn s)
                                    ++ new_rows (carbonmonoxide_id_seq (server s) + 1) data;
                  file := file (txn s);
                  cache := cache (txn s) |})).
Proof.
  run_session s. destruct fs as [|[e|] rest]; simpl; eauto.
Qed.

(** [markImported] changes the transaction only. *)
Lemma markImported_run (filename : string) (s : Session) :
  disk (server (markImported filename s).2) = disk (server s)
  /\ ((exists e, (markImported filename s).1 = Raise e)
      \/ ((markImported filename s).1 = Return tt
          /\ (filename ∉ file (txn s))
          /\ txn (markImported filename s).2
             = set_file ({[filename]} ∪ file (txn s)) (txn s))).
Proof.
  run_session s.
  destruct fs as [|[e|] rest]; simpl; eauto;
    destruct (decide (filename ∈ file t)); simpl; eauto.
Qed.

(** The DELETE of [Cache.invalidate] changes the transaction only. *)
Lemma Query_delete_run (crit : Cache -> option bool) (s : Session) :
  disk (server (Query_delete crit s).2) = disk (server s).
Proof. run_session s. destruct fs as [|[e|] rest]; reflexivity. Qed.

(** [Cache.invalidate] publishes the transaction, or raises and publishes
    nothing. *)
Lemma Cache_invalidate_run (earliest latest : Z) (s : Session) :
  (exists e, (Cache_invalidate earliest latest s).1 = Raise e
             /\ disk (server (Cache_invalidate earliest latest s).2) = disk (server s))
  \/ ((Cache_invalidate earliest latest s).1 = Return tt
      /\ disk (server (Cache_invalidate earliest latest s).2)
         = set_cache (delete_where (invalidate_filter earliest latest) (cache (txn s)))
                     (txn s)).
Proof.
  run_session s.
  destruct fs as [|[e|] [|[e'|] rest]]; simpl; eauto.
Qed.

(** What [with_session] leaves in the store is what the wrapped function has
    published. *)
Lemma with_session_run {A} (f : M A) (srv : Server) :
  (with_session f srv).1 = (f (get_session srv)).1
  /\ disk (with_session f srv).2 = disk (server (f (get_session srv)).2).
Proof.
  unfold with_session. destruct (f (get_session srv)) as [[r|e] s1]; simpl; done.
Qed.

(** The steps of [ingest], one after the other. *)
Lemma ingest_run (data : list datum) (filename : string) (s : Session) :
  ingest data filename s
  = match insert data "carbonmonoxide" s with
    | (Return _, s1) =>
        match markImported filename s1 with
        | (Return _, s2) =>
            match datetime_min (omap datum_timestamp data),
                  datetime_max (omap datum_timestamp data) with
            | Some earliest, Some latest => Cache_invalidate earliest latest s2
            | _, _ => (Raise ValueError, s2)
            end
        | (Raise e, s2) => (Raise e, s2)
        end
    | (Raise e, s1) => (Raise e, s1)
    end.
Proof.
  unfold ingest, mbind, M_bind, bind.
  destruct (insert data "carbonmonoxide" s) as [[[]|e1] s1]; [|reflexivity].
  destruct (markImported filename s1) as [[[]|e2] s2]; [|reflexivity].
  destruct (datetime_min (omap datum_timestamp data)),
    (datetime_max (omap datum_timestamp data)); reflexivity.
Qed.

(** C5: the ingest of a batch is all or nothing for every other session.
    The stored data change at one point only, the commit at the end of
    [Cache.invalidate]: after the insert, after the ledger mark and after
    the DELETE on the cache they are the data from before; when the ingest
    returns, the stored data hold the whole batch, the file name and the
    cache without the invalidated entries; when it raises, they are the data
    from before. *)
Theorem ingest_all_or_nothing (data : list datum) (filename : string) (srv : Server) :
  (forall s, disk (server (insert data "carbonmonoxide" s).2) = disk (server s))
  /\ (forall s, disk (server (markImported filename s).2) = disk (server s))
  /\ (forall crit s, disk (server (Query_delete crit s).2) = disk (server s))
  /\ ((exists e, (with_session (ingest data filename) srv).1 = Raise e
                 /\ disk (with_session (ingest data filename) srv).2 = disk srv)
      \/ (exists earliest latest,
            (with_session (ingest data filename) srv).1 = Return tt
            /\ datetime_min (omap datum_timestamp data) = Some earliest
            /\ datetime_max (omap datum_timestamp data) = Some latest
            /\ (filename ∉ file (disk srv))
            /\ disk (with_session (ingest data filename) srv).2
               = {| carbonmonoxide :=
                      carbonmonoxide (disk srv)
                      ++ new_rows (carbonmonoxide_id_seq srv + 1) data;
                    file := {[filename]} ∪ file (disk srv);
                    cache := delete_where (invalidate_filter earliest latest)
                                          (cache (disk srv)) |})).
Proof.
  split; [intros s; apply insert_run|].
  split; [intros s; apply markImported_run|].
  split; [intros crit s; apply Query_delete_run|].
  destruct (with_session_run (ingest data filename) srv) as [-> ->].
  rewrite (ingest_run data filename (get_session srv)).
  destruct (insert_run data (get_session srv)) as [Hd1 Hr1].
  destruct (insert data "carbonmonoxide" (get_session srv)) as [[[]|e1] s1] eqn:Hi;
    simpl in *; [|left; exists e1; done].
  destruct Hr1 as [[e [=]]|[_ Ht1]].
  destruct (markImported_run filename s1) as [Hd2 Hr2].
  destruct (markImported filename s1) as [[[]|e2] s2] eqn:Hm;
    simpl in *; [|left; exists e2; split; [done|congruence]].
  destruct Hr2 as [[e [=]]|(_ & Hnew & Ht2)].
  destruct (datetime_min (omap datum_timestamp data)) as [earliest|];
    [|left; exists ValueError; simpl; split; [done|congruence]].
  destruct (datetime_max (omap datum_timestamp data)) as [latest|];
    [|left; exists ValueError; simpl; split; [done|congruence]].
  destruct (Cache_invalidate_run earliest latest s2) as [(e & He & Hd3)|[Hr3 Hd3]].
  - left. exists e. split; [done|congruence].
  - right. exists earliest, latest.
    destruct (Cache_invalidate earliest latest s2) as [[[]|e3] s3];
      simpl in *; [|discriminate].
    rewrite Ht1 in Hnew. simpl in Hnew.
    split_and!; try done.
    rewrite Hd3, Ht2, Ht1. reflexivity.
Qed.

End IngestProperties.

(** A batch of three points from a new file, on a store whose cache holds
    the four sample entries: the entry that ends on day 1 stays (the batch
    starts on day 1); the other three go. *)
Example ingest_three_points :
  (with_session (ingest (three_data heap_engine (fun z => z)) "S5P_0001.nc")
                (sample_server heap_engine [])).1 = Return tt
  /\ disk (with_session (ingest (three_data heap_engine (fun z => z)) "S5P_0001.nc")
                        (sample_server heap_engine [])).2
     = {| carbonmonoxide := heap_points;
          file := {["S5P_0001.nc"]};
          cache := {["/data?end=1" :=
                       {| Cache_begin := None; Cache_end := Some 1;
                          Cache_response := "c" |}]} |}.
Proof. vm_compute. split; reflexivity. Qed.

(** The storage fails at the commit: nothing of the batch is stored. *)
Example ingest_commit_fails :
  with_session (ingest (three_data heap_engine (fun z => z)) "S5P_0001.nc")
               (sample_server heap_engine [None; None; None; Some OperationalError])
  = (Raise OperationalError,
     {| disk := disk (sample_server heap_engine []);
        carbonmonoxide_id_seq := 3;
        faults := [] |}).
Proof. vm_compute. reflexivity. Qed.

(** ** The web layer *)

Section WebProperties.
Context `{Imports}.

Lemma getattr_get_points :
  getattr emissionsapi_db "get_points" = Return (attr_def def_get_points).
Proof. reflexivity. Qed.

Lemma getattr_get_daily :
  getattr emissionsapi_db "get_daily"
  = Raise (AttributeError "module has no attribute 'get_daily'").
Proof. reflexivity. Qed.

Lemma call_get_points_polygon (session polygon : pyvalue)
    (rest : list (string * pyvalue)) :
  call (attr_def def_get_points) [session] (("polygon", polygon) :: rest)
  = Raise (TypeError "get_points() got an unexpected keyword argument 'polygon'").
Proof. reflexivity. Qed.

(** The body of [get_data] past the parameters. *)
Lemma get_data_body_run (country : option string) (geoframe polygon : option (list float))
    (begin end_ : option Z) (limit offset : option N) (s : Session) :
  get_data_body emissionsapi_db country geoframe polygon begin end_ limit offset s
  = match parse_spatial country geoframe polygon with
    | Raise e => (Raise e, s)
    | Return (inl rejection) => (Return rejection, s)
    | Return (inr _) =>
        (Raise (TypeError "get_points() got an unexpected keyword argument 'polygon'"), s)
    end.
Proof.
  unfold get_data_body, mbind, M_bind, bind, lift.
  destruct (parse_spatial country geoframe polygon) as [[r|w]|e]; reflexivity.
Qed.

Lemma get_daily_body_run (country : option string) (geoframe polygon : option (list float))
    (begin end_ : option Z) (limit offset : option N) (s : Session) :
  get_daily_body emissionsapi_db country geoframe polygon begin end_ limit offset s
  = match parse_spatial country geoframe polygon with
    | Raise e => (Raise e, s)
    | Return (inl rejection) => (Return rejection, s)
    | Return (inr _) =>
        (Raise (AttributeError "module has no attribute 'get_daily'"), s)
    end.
Proof.
  unfold get_daily_body, mbind, M_bind, bind, lift.
  destruct (parse_spatial country geoframe polygon) as [[r|w]|e]; reflexivity.
Qed.

Lemma parse_key_rejection (key : string) (date : option string) (r : response) :
  parse_key key date = Return (inl r) -> r = ErrorResponse ("Invalid " ++ key) 400.
Proof.
  unfold parse_key. destruct date as [d|]; [|discriminate].
  destruct (dateutil_parser_parse d) as [t|[]]; try discriminate.
  intros [= <-]. reflexivity.
Qed.

Lemma parse_spatial_rejection (country : option string)
    (geoframe polygon : option (list float)) (r : response) :
  parse_spatial country geoframe polygon = Return (inl r) ->
  exists msg, r = ErrorResponse msg 400.
Proof.
  unfold parse_spatial.
  destruct geoframe as [frame|].
  - destruct (bounding_box_to_wkt frame) as [w|[]]; try discriminate.
    intros [= <-]. eauto.
  - destruct country as [code|].
    + destruct (country_bounding_boxes !! code) as [box|].
      * destruct (bounding_box_to_wkt box.2); discriminate.
      * intros [= <-]. eauto.
    + destruct polygon as [points|]; [|discriminate].
      destruct (polygon_to_wkt points) as [w|[]]; try discriminate.
      intros [= <-]. eauto.
Qed.

(** C9: the call of [get_points] with the keywords polygon, begin and end
    raises a TypeError, since [get_points] takes the session only, and the
    lookup of [get_daily] in the database module raises an AttributeError.
    So no invocation of [get_data] or [get_daily] returns data: each ends in
    an exception or in a rejection of the parameters with status 400, and
    one whose parameters are accepted ends in that TypeError, respectively
    that AttributeError. *)
Theorem endpoints_never_return_data (country : option string)
    (geoframe polygon : option (list float)) (begin end_ : option string)
    (limit offset : option N) (srv : Server) :
  getattr emissionsapi_db "get_points" = Return (attr_def def_get_points)
  /\ parameters def_get_points = ["session"]
  /\ (forall session wkt b e,
        call (attr_def def_get_points) [session]
             [("polygon", wkt); ("begin", b); ("end", e)]
        = Raise (TypeError "get_points() got an unexpected keyword argument 'polygon'"))
  /\ getattr emissionsapi_db "get_daily"
     = Raise (AttributeError "module has no attribute 'get_daily'")
  /\ no_data (get_data emissionsapi_db country geoframe polygon begin end_
                       limit offset srv).1
  /\ no_data (get_daily emissionsapi_db country geoframe polygon begin end_
                        limit offset srv).1
  /\ (forall begin' end' wkt,
        parse_key "begin" begin = Return (inr begin') ->
        parse_key "end" end_ = Return (inr end') ->
        parse_spatial country geoframe polygon = Return (inr wkt) ->
        (get_data emissionsapi_db country geoframe polygon begin end_
                  limit offset srv).1
        = Raise (TypeError "get_points() got an unexpected keyword argument 'polygon'")
        /\ (get_daily emissionsapi_db country geoframe polygon begin end_
                      limit offset srv).1
           = Raise (AttributeError "module has no attribute 'get_daily'")).
Proof.
  split_and!.
  - reflexivity.
  - reflexivity.
  - intros. reflexivity.
  - reflexivity.
  - unfold get_data, parse_date.
    destruct (parse_key "begin" begin) as [[r|b]|e] eqn:Hb; simpl; [|idtac|exact I].
    { rewrite (parse_key_rejection _ _ _ Hb). reflexivity. }
    destruct (parse_key "end" end_) as [[r|e']|e] eqn:He; simpl; [|idtac|exact I].
    { rewrite (parse_key_rejection _ _ _ He). reflexivity. }
    rewrite (proj1 (with_session_run _ srv)), get_data_body_run.
    destruct (parse_spatial country geoframe polygon) as [[r|w]|e] eqn:Hs;
      simpl; try exact I.
    destruct (parse_spatial_rejection _ _ _ _ Hs) as [msg ->]. reflexivity.
  - unfold get_daily, parse_date.
    destruct (parse_key "begin" begin) as [[r|b]|e] eqn:Hb; simpl; [|idtac|exact I].
    { rewrite (parse_key_rejection _ _ _ Hb). reflexivity. }
    destruct (parse_key "end" end_) as [[r|e']|e] eqn:He; simpl; [|idtac|exact I].
    { rewrite (parse_key_rejection _ _ _ He). reflexivity. }
    rewrite (proj1 (with_session_run _ srv)), get_daily_body_run.
    destruct (parse_spatial country geoframe polygon) as [[r|w]|e] eqn:Hs;
      simpl; try exact I.
    destruct (parse_spatial_rejection _ _ _ _ Hs) as [msg ->]. reflexivity.
  - intros begin' end' wkt Hb He Hs.
    unfold get_data, get_daily, parse_date. rewrite Hb, He.
    rewrite !(proj1 (with_session_run _ srv)), get_data_body_run, get_daily_body_run.
    rewrite Hs. split; reflexivity.
Qed.

(** C10: of the spatial parameters geoframe, country and polygon exactly one
    is used, geoframe before country before polygon.  With a geoframe, the
    country and the polygon change neither the WKT polygon nor the response
    of either endpoint, whatever the database module; with a country and no
    geoframe, the polygon changes nothing; the WKT polygon is the one of the
    geoframe, else the one of the country's bounding box, else the one of
    the polygon. *)
Theorem spatial_parameter_precedence (db : module) (country : option string)
    (polygon : option (list float)) (begin end_ : option string)
    (limit offset : option N) (srv : Server) (frame : list float) (code : string) :
  parse_spatial country (Some frame) polygon = parse_spatial None (Some frame) None
  /\ parse_spatial (Some code) None polygon = parse_spatial (Some code) None None
  /\ get_data db country (Some frame) polygon begin end_ limit offset srv
     = get_data db None (Some frame) None begin end_ limit offset srv
  /\ get_data db (Some code) None polygon begin end_ limit offset srv
     = get_data db (Some code) None None begin end_ limit offset srv
  /\ get_daily db country (Some frame) polygon begin end_ limit offset srv
     = get_daily db None (Some frame) None begin end_ limit offset srv
  /\ get_daily db (Some code) None polygon begin end_ limit offset srv
     = get_daily db (Some code) None None begin end_ limit offset srv
  /\ (forall wkt, bounding_box_to_wkt frame = Return wkt ->
        parse_spatial country (Some frame) polygon = Return (inr (Some wkt)))
  /\ (bounding_box_to_wkt frame = Raise ValueError ->
        parse_spatial country (Some frame) polygon
        = Return (inl (ErrorResponse "Invalid geoparam" 400)))
  /\ (forall name box wkt,
        country_bounding_boxes !! code = Some (name, box) ->
        bounding_box_to_wkt box = Return wkt ->
        parse_spatial (Some code) None polygon = Return (inr (Some wkt)))
  /\ (forall points wkt,
        polygon_to_wkt points = Return wkt ->
        parse_spatial None None (Some points) = Return (inr (Some wkt))).
Proof.
  split_and!; try reflexivity.
  - intros wkt Hw. unfold parse_spatial. rewrite Hw. reflexivity.
  - intros Hw. unfold parse_spatial. rewrite Hw. reflexivity.
  - intros name box wkt Hc Hw. unfold parse_spatial. rewrite Hc. simpl.
    rewrite Hw. reflexivity.
  - intros points wkt Hw. unfold parse_spatial. rewrite Hw. reflexivity.
Qed.

End WebProperties.

(** A request with accepted parameters on the sample store. *)
Example get_data_raises_TypeError :
  get_data (H0 := sample_imports) emissionsapi_db (Some "DE") None None
           (Some "day 1") (Some "day 9") (Some 10%N) None (sample_server heap_engine [])
  = (Raise (TypeError "get_points() got an unexpected keyword argument 'polygon'"),
     sample_server heap_engine []).
Proof. vm_compute. reflexivity. Qed.

Example get_data_unknown_country :
  (get_data (H0 := sample_imports) emissionsapi_db (Some "XX") None None
            None None None None (sample_server heap_engine [])).1
  = Return (ErrorResponse "Unknown country code." 400).
Proof. vm_compute. reflexivity. Qed.

Example get_data_geoframe_wins :
  (get_data (H0 := sample_imports)
            (("get_points", attr_def def_get_points_filtered) :: emissionsapi_db)
            (Some "XX") (Some [0; 0; 10; 10]) (Some [1; 2; 3])
            None (Some "day 9") None None served_server).1
  = Return (FeatureCollection
              [ @Build_Feature heap_engine (Some 5) (Some 5) (Some 10) (Some 1);
                @Build_Feature heap_engine (Some 6) (Some 6) (Some 30) (Some 3) ]).
Proof. vm_compute. reflexivity. Qed.

Lemma endpoints_never_return_data_witness :
  (get_data (H0 := sample_imports) emissionsapi_db None (Some [0; 0; 10; 10]) None
            (Some "day 1") None None None (sample_server heap_engine [])).1
  = Raise (TypeError "get_points() got an unexpected keyword argument 'polygon'").
Proof.
  refine (proj1 (proj2 (proj2 (proj2 (proj2 (proj2 (proj2
    (endpoints_never_return_data (H0 := sample_imports) None (Some [0; 0; 10; 10]) None
       (Some "day 1") None None None (sample_server heap_engine [])))))))
    (Some 1) None (Some "BOX(0 0,10 10)") _ _ _)).
  - reflexivity.
  - reflexivity.
  - reflexivity.
Defined.

Lemma spatial_parameter_precedence_witness :
  parse_spatial (H0 := sample_imports) (Some "XX") (Some [0; 0; 10; 10]) (Some [1; 2; 3])
  = Return (inr (Some "BOX(0 0,10 10)")).
Proof.
  refine (proj1 (proj2 (proj2 (proj2 (proj2 (proj2 (proj2
    (spatial_parameter_precedence (H0 := sample_imports) emissionsapi_db (Some "XX")
       (Some [1; 2; 3]) None None None None (sample_server heap_engine [])
       [0; 0; 10; 10] "DE")))))))
    "BOX(0 0,10 10)" _).
  reflexivity.
Defined.

(** * Further properties *)

(** ** The cache *)

Section FurtherCacheProperties.
Context `{Engine}.

Lemma delete_where_Some (crit : Cache -> option bool) (t : gmap string Cache)
    (k : string) (c : Cache) :
  delete_where crit t !! k = Some c <-> t !! k = Some c /\ sql_holds (crit c) = false.
Proof. unfold delete_where. rewrite map_lookup_filter_Some. simpl. tauto. Qed.

Lemma delete_where_comm (f g : Cache -> option bool) (t : gmap string Cache) :
  delete_where f (delete_where g t) = delete_where g (delete_where f t).
Proof.
  unfold delete_where. rewrite !map_filter_filter.
  apply map_filter_ext. intros k c _. simpl. tauto.
Qed.

(** A wider window deletes what a narrower one deletes. *)
Lemma invalidate_filter_mono (earliest latest earliest' latest' : Z) (c : Cache) :
  earliest' <= earliest -> latest <= latest' ->
  sql_holds (invalidate_filter earliest latest c) = true ->
  sql_holds (invalidate_filter earliest' latest' c) = true.
Proof.
  intros He Hl. rewrite !invalidate_filter_holds.
  unfold ends_before, begins_after.
  intros Hn [(e & Hc & ?)|(b & Hc & ?)]; apply Hn;
    [left; exists e|right; exists b]; split; try done; lia.
Qed.

(** [Cache.invalidate] only removes: every entry left in the store was in
    the session before, unchanged; the points and the ledger of the session
    are stored as they are, and nothing is left pending in the session. *)
Theorem invalidate_only_removes (earliest latest : Z) (s s' : Session) :
  Cache_invalidate earliest latest s = (Return tt, s') ->
  (forall k c, cache (disk (server s')) !! k = Some c -> cache (txn s) !! k = Some c)
  /\ carbonmonoxide (disk (server s')) = carbonmonoxide (txn s)
  /\ file (disk (server s')) = file (txn s)
  /\ txn s' = disk (server s').
Proof.
  intros Hrun. destruct (Cache_invalidate_returns _ _ _ _ Hrun) as [Ht Hd].
  rewrite Hd, Ht. simpl. split_and!; try done.
  intros k c Hk. apply delete_where_Some in Hk. tauto.
Qed.

(** The invalidation is monotone in its window: on the same session, the
    entries that survive a wider window survive a narrower one. *)
Theorem invalidate_monotone (earliest latest earliest' latest' : Z)
    (s narrow wide : Session) :
  earliest' <= earliest -> latest <= latest' ->
  Cache_invalidate earliest latest s = (Return tt, narrow) ->
  Cache_invalidate earliest' latest' s = (Return tt, wide) ->
  forall k c,
    cache (disk (server wide)) !! k = Some c ->
    cache (disk (server narrow)) !! k = Some c.
Proof.
  intros He Hl Hn Hw k c.
  destruct (Cache_invalidate_returns _ _ _ _ Hn) as [Htn Hdn].
  destruct (Cache_invalidate_returns _ _ _ _ Hw) as [Htw Hdw].
  rewrite Hdn, Htn, Hdw, Htw. simpl. rewrite !delete_where_Some.
  intros [Hk Hc]. split; [done|].
  destruct (sql_holds (invalidate_filter earliest latest c)) eqn:Hf; [|done].
  rewrite (invalidate_filter_mono _ _ _ _ c He Hl Hf) in Hc. done.
Qed.

(** Two invalidations leave the same stored data in either order. *)
Theorem invalidate_commute (e1 l1 e2 l2 : Z) (s a ab b ba : Session) :
  Cache_invalidate e1 l1 s = (Return tt, a) ->
  Cache_invalidate e2 l2 a = (Return tt, ab) ->
  Cache_invalidate e2 l2 s = (Return tt, b) ->
  Cache_invalidate e1 l1 b = (Return tt, ba) ->
  disk (server ab) = disk (server ba) /\ txn ab = txn ba.
Proof.
  intros H1 H2 H3 H4.
  destruct (Cache_invalidate_returns _ _ _ _ H1) as [Ta Da].
  destruct (Cache_invalidate_returns _ _ _ _ H2) as [Tab Dab].
  destruct (Cache_invalidate_returns _ _ _ _ H3) as [Tb Db].
  destruct (Cache_invalidate_returns _ _ _ _ H4) as [Tba Dba].
  assert (Ht : txn ab = txn ba).
  { rewrite Tab, Ta, Tba, Tb. unfold set_cache. simpl.
    rewrite delete_where_comm. reflexivity. }
  rewrite Dab, Dba. done.
Qed.

End FurtherCacheProperties.

Lemma invalidate_only_removes_witness :
  file (disk (server (Cache_invalidate 1 3 touching_session).2))
  = file (txn touching_session).
Proof.
  refine (proj1 (proj2 (proj2
    (invalidate_only_removes (H := heap_engine) 1 3 touching_session
       (Cache_invalidate 1 3 touching_session).2 _)))).
  vm_compute. reflexivity.
Defined.

Lemma invalidate_monotone_witness :
  cache (disk (server (Cache_invalidate 4 4 touching_session).2)) !! "/data?end=1"
  = Some {| Cache_begin := None; Cache_end := Some 1; Cache_response := "c" |}.
Proof.
  refine (invalidate_monotone (H := heap_engine) 4 4 2 7 touching_session
            (Cache_invalidate 4 4 touching_session).2
            (Cache_invalidate 2 7 touching_session).2 _ _ _ _
            "/data?end=1"
            {| Cache_begin := None; Cache_end := Some 1; Cache_response := "c" |} _).
  - lia.
  - lia.
  - vm_compute. reflexivity.
  - vm_compute. reflexivity.
  - vm_compute. reflexivity.
Defined.

Lemma invalidate_commute_witness :
  disk (server (Cache_invalidate 6 8 (Cache_invalidate 0 1 touching_session).2).2)
  = disk (server (Cache_invalidate 0 1 (Cache_invalidate 6 8 touching_session).2).2).
Proof.
  refine (proj1 (invalidate_commute (H := heap_engine) 0 1 6 8 touching_session
            (Cache_invalidate 0 1 touching_session).2
            (Cache_invalidate 6 8 (Cache_invalidate 0 1 touching_session).2).2
            (Cache_invalidate 6 8 touching_session).2
            (Cache_invalidate 0 1 (Cache_invalidate 6 8 touching_session).2).2
            _ _ _ _)); vm_compute; reflexivity.
Defined.

(** ** Sessions and the batch insert *)

Section FurtherStoreProperties.
Context `{Engine}.


Lemma keeps_store_raise {A} (e : exn) : keeps_store (@raise _ A e).
Proof. intros s. reflexivity. Qed.


Lemma keeps_store_bind {A B} (m : M A) (k : A -> M B) :
  keeps_store m -> (forall a, keeps_store (k a)) -> keeps_store (m ≫= k).
Proof.
  intros Hm Hk s. unfold mbind, M_bind, bind.
  specialize (Hm s). destruct (m s) as [[a|e] s1]; simpl in *; [|exact Hm].
  rewrite (Hk a s1). exact Hm.
Qed.

Lemma keeps_store_storage_op : keeps_store storage_op.
Proof.
  intros [[d n fs] t]. unfold storage_op, get_state, put_state, mbind, M_bind, bind,
    ret, raise. simpl. destruct fs as [|[e|] rest]; reflexivity.
Qed.


Lemma keeps_store_Query_iter (q : Query) : keeps_store (Query_iter q).
Proof.
  unfold Query_iter. apply keeps_store_bind; [apply keeps_store_storage_op|].
  intros _ s. unfold get_state, mbind, M_bind, bind. simpl.
  destruct (Query_all q (carbonmonoxide (txn s))); reflexivity.
Qed.

(** [with_session] commits nothing itself: around code that publishes
    nothing, the stored data are after the call what they were before,
    whether the code returns or raises, and the caller gets the result or the
    exception of the code. *)
Theorem with_session_commits_nothing {A} (f : M A) (srv : Server) :
  keeps_store f ->
  disk (with_session f srv).2 = disk srv
  /\ (with_session f srv).1 = (f (get_session srv)).1.
Proof.
  intros Hf. destruct (with_session_run f srv) as [Hr Hd].
  split; [|exact Hr]. rewrite Hd. apply (Hf (get_session srv)).
Qed.


Lemma new_rows_columns (next : Z) (data : list datum) :
  length (new_rows next data) = length data
  /\ Carbonmonoxide_value <$> new_rows next data = datum_value <$> data
  /\ Carbonmonoxide_timestamp <$> new_rows next data = datum_timestamp <$> data
  /\ Carbonmonoxide_geom <$> new_rows next data
     = (fun d => match datum_longitude d, datum_latitude d with
                 | Some lon, Some lat => Some (ST_MakePoint lon lat)
                 | _, _ => None
                 end) <$> data.
Proof.
  revert next. induction data as [|d data IH]; intros next; [done|].
  destruct (IH (next + 1)) as (Hl & Hv & Ht & Hg).
  cbn [new_rows]. rewrite !fmap_cons. cbn [length].
  rewrite Hl, Hv, Ht, Hg. done.
Qed.

Lemma new_rows_ids (next : Z) (data : list datum) :
  NoDup (Carbonmonoxide_id <$> new_rows next data)
  /\ Forall (fun p => next <= Carbonmonoxide_id p < next + Z.of_nat (length data))
            (new_rows next data).
Proof.
  revert next. induction data as [|d data IH]; intros next.
  - split; constructor.
  - destruct (IH (next + 1)) as [Hn Hf]. simpl. split.
    + constructor; [|exact Hn].
      rewrite list_elem_of_fmap. intros (p & Hp & Hin).
      rewrite Forall_forall in Hf. specialize (Hf p Hin). lia.
    + constructor; [simpl; lia|].
      eapply Forall_impl; [exact Hf|]. intros p Hp. simpl in Hp. lia.
Qed.

Lemma insert_returns (data : list datum) (s s' : Session) :
  insert data "carbonmonoxide" s = (Return tt, s') ->
  txn s' = {| carbonmonoxide := carbonmonoxide (txn s)
                                ++ new_rows (carbonmonoxide_id_seq (server s) + 1) data;
              file := file (txn s);
              cache := cache (txn s) |}
  /\ disk (server s') = disk (server s)
  /\ carbonmonoxide_id_seq (server s')
     = carbonmonoxide_id_seq (server s) + Z.of_nat (length data).
Proof.
  destruct s as [[d n fs] t].
  unfold insert, storage_op, get_state, put_state, mbind, M_bind, bind, ret, raise.
  simpl. destruct fs as [|[e|] rest]; simpl; intros [= <-]; done.
Qed.

(** A batch that [insert] accepts is appended whole and in order: the
    session sees its old points followed by one point per dictionary, with
    the dictionary's value and timestamp and the point ST_MakePoint makes of
    its coordinates (NULL when one is missing); the ledger and the cache of
    the session are untouched, and the stored data too. *)
Theorem insert_appends_batch (data : list datum) (s s' : Session) :
  insert data "carbonmonoxide" s = (Return tt, s') ->
  exists rows : list Carbonmonoxide,
    carbonmonoxide (txn s') = (carbonmonoxide (txn s) ++ rows)%list
    /\ length rows = length data
    /\ Carbonmonoxide_value <$> rows = datum_value <$> data
    /\ Carbonmonoxide_timestamp <$> rows = datum_timestamp <$> data
    /\ Carbonmonoxide_geom <$> rows
       = (fun d => match datum_longitude d, datum_latitude d with
                   | Some lon, Some lat => Some (ST_MakePoint lon lat)
                   | _, _ => None
                   end) <$> data
    /\ file (txn s') = file (txn s)
    /\ cache (txn s') = cache (txn s)
    /\ disk (server s') = disk (server s).
Proof.
  intros Hrun. destruct (insert_returns _ _ _ Hrun) as (Ht & Hd & _).
  exists (new_rows (carbonmonoxide_id_seq (server s) + 1) data).
  destruct (new_rows_columns (carbonmonoxide_id_seq (server s) + 1) data)
    as (Hl & Hv & Hts & Hg).
  rewrite Ht. simpl. done.
Qed.

(** [insert] keeps the primary keys of the points distinct and within the
    sequence. *)
Theorem insert_keeps_primary_keys_fresh (data : list datum) (s s' : Session) :
  insert data "carbonmonoxide" s = (Return tt, s') ->
  primary_keys_fresh s -> primary_keys_fresh s'.
Proof.
  intros Hrun [Hnd Hle]. destruct (insert_returns _ _ _ Hrun) as (Ht & _ & Hseq).
  destruct (new_rows_ids (carbonmonoxide_id_seq (server s) + 1) data) as [Hn Hf].
  unfold primary_keys_fresh. rewrite Ht, Hseq. simpl.
  rewrite Forall_forall in Hle, Hf. split.
  - rewrite fmap_app. apply NoDup_app. split_and!; [exact Hnd| |exact Hn].
    intros i Hi Hi'. apply list_elem_of_fmap in Hi as (p & -> & Hp).
    apply list_elem_of_fmap in Hi' as (p' & Heq & Hp').
    specialize (Hle p Hp). specialize (Hf p' Hp'). lia.
  - rewrite Forall_forall. intros p Hp. apply elem_of_app in Hp as [Hp|Hp].
    + specialize (Hle p Hp). lia.
    + specialize (Hf p Hp). lia.
Qed.

(** A session reads its own insert before any commit: the point query run
    in the inserting session returns as many rows as the old points and the
    batch together, while a session opened on the store meanwhile still gets
    the old points only. *)
Theorem insert_visible_in_own_session (data : list datum) (s s' : Session) :
  insert data "carbonmonoxide" s = (Return tt, s') ->
  (exists rows,
     Query_all get_points (carbonmonoxide (txn s')) = Return rows
     /\ length rows = (length (carbonmonoxide (txn s)) + length data)%nat)
  /\ (exists rows,
        Query_all get_points (carbonmonoxide (txn (get_session (server s'))))
        = Return rows
        /\ length rows = length (carbonmonoxide (disk (server s)))).
Proof.
  intros Hrun. destruct (insert_returns _ _ _ Hrun) as (Ht & Hd & _).
  assert (Hq : forall table,
             Query_all get_points table = Return (point_row <$> selected get_points table)
             /\ length (point_row <$> selected get_points table) = length table).
  { intros table. split.
    - unfold Query_all. rewrite Query_rows_points by done. reflexivity.
    - rewrite length_fmap. unfold selected.
      rewrite filter_all by (intros p; exact I).
      apply Permutation_length, scan_order_perm. }
  split.
  - eexists. split; [apply Hq|]. rewrite (proj2 (Hq _)), Ht. simpl.
    rewrite length_app.
    rewrite (proj1 (new_rows_columns _ data)). reflexivity.
  - eexists. split; [apply Hq|]. rewrite (proj2 (Hq _)). simpl. rewrite Hd.
    reflexivity.
Qed.

End FurtherStoreProperties.

Lemma with_session_commits_nothing_witness :
  disk (with_session (Query_iter (H := heap_engine) get_points)
                     (sample_server heap_engine [Some OperationalError])).2
  = disk (sample_server heap_engine [Some OperationalError]).
Proof.
  refine (proj1 (with_session_commits_nothing (H := heap_engine)
                   (Query_iter get_points)
                   (sample_server heap_engine [Some OperationalError]) _)).
  apply keeps_store_Query_iter.
Defined.

Lemma insert_appends_batch_witness :
  exists rows : list (@Carbonmonoxide heap_engine),
    carbonmonoxide
      (txn (insert (three_data heap_engine (fun z => z)) "carbonmonoxide"
                   touching_session).2)
    = (carbonmonoxide (txn touching_session) ++ rows)%list
    /\ length rows = 3%nat.
Proof.
  destruct (insert_appends_batch (H := heap_engine) (three_data heap_engine (fun z => z))
              touching_session
              (insert (three_data heap_engine (fun z => z)) "carbonmonoxide"
                      touching_session).2)
    as (rows & Happ & Hlen & _).
  - vm_compute. reflexivity.
  - exists rows. split; [exact Happ|exact Hlen].
Defined.

Lemma insert_keeps_primary_keys_fresh_witness :
  primary_keys_fresh
    (insert (three_data heap_engine (fun z => z)) "carbonmonoxide" touching_session).2.
Proof.
  refine (insert_keeps_primary_keys_fresh (H := heap_engine)
            (three_data heap_engine (fun z => z)) touching_session _ _ _).
  - vm_compute. reflexivity.
  - split; constructor.
Defined.

Lemma insert_visible_in_own_session_witness :
  exists rows,
    Query_all get_points
      (carbonmonoxide
         (txn (insert (three_data heap_engine (fun z => z)) "carbonmonoxide"
                      touching_session).2))
    = Return rows
    /\ length rows = 3%nat.
Proof.
  refine (proj1 (insert_visible_in_own_session (H := heap_engine)
                   (three_data heap_engine (fun z => z)) touching_session
                   (insert (three_data heap_engine (fun z => z)) "carbonmonoxide"
                           touching_session).2 _)).
  vm_compute. reflexivity.
Defined.

(** ** Filters and pages *)

Section FurtherQueryProperties.
Context `{Engine}.

Lemma in_bounds_None (t : option Z) : in_bounds None None t = true.
Proof. destruct t; reflexivity. Qed.

Lemma in_bounds_intersect (x1 y1 x2 y2 : Z) (t : option Z) :
  in_bounds (Some x1) (Some y1) t && in_bounds (Some x2) (Some y2) t
  = in_bounds (Some (Z.max x1 x2)) (Some (Z.min y1 y2)) t.
Proof.
  destruct t as [t|]; [|reflexivity]. simpl.
  repeat match goal with
         | |- context [(?x <=? ?y)] => destruct (Z.leb_spec x y)
         | |- context [(?x <? ?y)] => destruct (Z.ltb_spec x y)
         end; simpl; try reflexivity; lia.
Qed.

(** Filters compose as a conjunction: two calls of [filter_query] select the
    same points in either order, a repeated call changes nothing, the
    spatial and the temporal filter may come in one call or in two, and two
    intervals select their intersection. *)
Theorem filter_query_composes (q : Query) (w1 w2 : option string)
    (d1 d2 : option float) (b1 e1 b2 e2 : option Z) (table : list Carbonmonoxide) :
  selected (filter_query (filter_query q w1 d1 b1 e1) w2 d2 b2 e2) table
  = selected (filter_query (filter_query q w2 d2 b2 e2) w1 d1 b1 e1) table
  /\ selected (filter_query (filter_query q w1 d1 b1 e1) w1 d1 b1 e1) table
     = selected (filter_query q w1 d1 b1 e1) table
  /\ selected (filter_query (filter_query q w1 d1 None None) None None b1 e1) table
     = selected (filter_query q w1 d1 b1 e1) table
  /\ (forall x1 y1 x2 y2,
        selected (filter_query (filter_query q None None (Some x1) (Some y1))
                               None None (Some x2) (Some y2)) table
        = selected (filter_query q None None (Some (Z.max x1 x2)) (Some (Z.min y1 y2)))
                   table).
Proof.
  split_and!.
  - rewrite !selected_filter_query, !list_filter_filter.
    apply list_filter_iff. intros p. tauto.
  - rewrite !selected_filter_query, !list_filter_filter.
    apply list_filter_iff. intros p. tauto.
  - rewrite !selected_filter_query, !list_filter_filter.
    apply list_filter_iff. intros p. simpl. rewrite in_bounds_None.
    destruct (spatial_holds w1 d1 (Carbonmonoxide_geom p)),
      (in_bounds b1 e1 (Carbonmonoxide_timestamp p)); simpl; tauto.
  - intros x1 y1 x2 y2.
    rewrite !selected_filter_query, !list_filter_filter.
    apply list_filter_iff. intros p. simpl.
    rewrite <- in_bounds_intersect, andb_True. tauto.
Qed.


(** The edges of pagination: an offset at or past the end and a limit of 0
    give the empty list and no error; without a limit everything after the
    offset is returned; a limit that exceeds the rows returns them all. *)
Theorem pagination_edges (q : Query) (table : list Carbonmonoxide)
    (rows : list (list cell)) :
  Query_rows q table = Return rows ->
  (forall l o, (length rows <= N.to_nat o)%nat ->
     Query_all (limit_offset_query q l (Some o)) table = Return [])
  /\ (forall o, Query_all (limit_offset_query q (Some 0%N) o) table = Return [])
  /\ (forall o, limit q = None ->
        Query_all (limit_offset_query q None (Some o)) table
        = Return (drop (N.to_nat o) rows))
  /\ (forall l, offset q = None -> (length rows <= N.to_nat l)%nat ->
        Query_all (limit_offset_query q (Some l) None) table = Return rows).
Proof.
  intros Hrows. split_and!.
  - intros l o Hlen. rewrite Query_all_limit_offset_query, Hrows. simpl.
    unfold paginate. rewrite drop_ge by exact Hlen.
    destruct l as [l|]; [|destruct (limit q)]; rewrite ?take_nil; reflexivity.
  - intros o. rewrite Query_all_limit_offset_query, Hrows. simpl.
    unfold paginate. reflexivity.
  - intros o Hl. rewrite Query_all_limit_offset_query, Hrows, Hl. reflexivity.
  - intros l Ho Hlen. rewrite Query_all_limit_offset_query, Hrows, Ho. simpl.
    rewrite take_ge by exact Hlen. reflexivity.
Qed.

End FurtherQueryProperties.


Lemma pagination_edges_witness :
  Query_all (limit_offset_query get_points (Some 5%N) (Some 3%N)) heap_points = Return [].
Proof.
  refine (proj1 (pagination_edges (H := heap_engine) get_points heap_points
                   (point_row <$> heap_points) _) (Some 5%N) 3%N _).
  - reflexivity.
  - simpl. lia.
Defined.

(** ** The aggregates *)

Section FurtherAggregateProperties.
Context `{Engine}.

Lemma Query_rows_averages_groups (q : Query) (table : list Carbonmonoxide) :
  columns q = columns get_averages ->
  group_by q = Some func_date ->
  Query_rows q table
  = Return (averages_row (selected q table) <$> group_keys date (selected q table)).
Proof.
  intros Hc Hg. unfold Query_rows. rewrite Hc, Hg. simpl.
  rewrite <- (mapM_Return (averages_row (selected q table))).
  f_equal.
Qed.

(** [get_averages], with or without filters, never raises and yields one
    tuple per day of the selected points: the average of the day, its
    maximal timestamp, its minimal timestamp and the day, in this order (the
    maximum before the minimum). *)
Theorem averages_one_tuple_per_day (wkt : option string) (distance : option float)
    (begin end_ : option Z) (table rows : list Carbonmonoxide) :
  rows = selected (filter_query get_averages wkt distance begin end_) table ->
  Query_all (filter_query get_averages wkt distance begin end_) table
  = Return (averages_row rows <$> group_keys date rows)
  /\ (forall t,
        averages_row rows t
        = [cell_float (avg (omap Carbonmonoxide_value (group_of date t rows)));
           cell_datetime (datetime_max (omap Carbonmonoxide_timestamp (group_of date t rows)));
           cell_datetime (datetime_min (omap Carbonmonoxide_timestamp (group_of date t rows)));
           cell_datetime t])
  /\ NoDup (group_keys date rows)
  /\ (forall t,
        t ∈ group_keys date rows
        <-> exists p, p ∈ rows /\ date <$> Carbonmonoxide_timestamp p = t).
Proof.
  intros ->.
  destruct (filter_query_shape get_averages wkt distance begin end_)
    as (Hc & Hg & Hl & Ho).
  split_and!.
  - unfold Query_all. rewrite Hl, Ho.
    rewrite Query_rows_averages_groups by done. reflexivity.
  - reflexivity.
  - apply NoDup_remove_dups.
  - intros t. apply group_keys_spec.
Qed.

(** One key among distinct keys: the sum over the keys of a weight given to
    that key alone is the weight. *)
Lemma sum_one_key {K} `{EqDecision K} (keys : list K) (k : K) (w : nat) (f : K -> nat) :
  NoDup keys -> k ∈ keys ->
  sum_list_with (fun t => (if decide (k = t) then w else 0) + f t)%nat keys
  = (w + sum_list_with f keys)%nat.
Proof.
  induction 1 as [|t keys Hnotin Hnd IH]; intros Hin.
  - inversion Hin.
  - simpl. destruct (decide (k = t)) as [->|Hne].
    + assert (Hz : sum_list_with
                     (fun t0 => (if decide (t = t0) then w else 0) + f t0)%nat keys
                   = sum_list_with f keys).
      { clear IH Hin. induction keys as [|t' keys IH']; [reflexivity|].
        simpl. apply not_elem_of_cons in Hnotin as [Hne Hnotin].
        apply NoDup_cons in Hnd as [_ Hnd].
        rewrite (IH' Hnotin Hnd).
        destruct (decide (t = t')); [done|lia]. }
      rewrite Hz. lia.
    + apply elem_of_cons in Hin as [->|Hin]; [done|].
      rewrite (IH Hin). lia.
Qed.

Lemma sum_list_with_pointwise {K} (f g : K -> nat) (l : list K) :
  (forall t, f t = g t) -> sum_list_with f l = sum_list_with g l.
Proof.
  intros Hfg. induction l as [|t l IH]; [reflexivity|].
  simpl. rewrite Hfg, IH. reflexivity.
Qed.

(** The groups partition the rows: whatever is counted per row, the counts
    of the groups add up to the count over all rows. *)
Lemma groups_partition {V} (trunc : Z -> Z) (v : Carbonmonoxide -> option V)
    (keys : list (option Z)) (rows : list Carbonmonoxide) :
  NoDup keys ->
  (forall p, p ∈ rows -> trunc <$> Carbonmonoxide_timestamp p ∈ keys) ->
  sum_list_with (fun t => length (omap v (group_of trunc t rows))) keys
  = length (omap v rows).
Proof.
  intros Hnd. induction rows as [|p rows IH]; intros Hkeys.
  - clear Hnd Hkeys. unfold group_of. simpl.
    induction keys as [|t keys IHk]; [reflexivity|exact IHk].
  - assert (IH' := IH (fun p' Hp' => Hkeys p' (list_elem_of_further _ _ _ Hp'))).
    assert (Hp := Hkeys p (list_elem_of_here _ _)).
    set (k := trunc <$> Carbonmonoxide_timestamp p) in *.
    set (w := length (omap v [p])).
    transitivity
      (sum_list_with
         (fun t => (if decide (k = t) then w else 0)
                   + length (omap v (group_of trunc t rows)))%nat keys).
    + apply sum_list_with_pointwise. intros t. unfold group_of.
      destruct (decide (k = t)) as [Heq|Hne].
      * rewrite filter_cons_True by exact Heq.
        unfold w. simpl. destruct (v p); reflexivity.
      * rewrite filter_cons_False by exact Hne. reflexivity.
    + rewrite (sum_one_key keys k w _ Hnd Hp), IH'.
      unfold w. simpl. destruct (v p); reflexivity.
Qed.

Lemma total_count_statistics (trunc : Z -> Z) (rows : list Carbonmonoxide)
    (keys : list (option Z)) :
  total_count (statistics_row trunc rows <$> keys)
  = Z.of_nat (sum_list_with
                (fun t => length (omap Carbonmonoxide_value (group_of trunc t rows)))
                keys).
Proof.
  induction keys as [|t keys IH]; [reflexivity|].
  rewrite fmap_cons. cbn [total_count foldr sum_list_with].
  fold (total_count (statistics_row trunc rows <$> keys)). rewrite IH.
  unfold statistics_row, row_count. lia.
Qed.

(** The counts of the statistics add up: for a granularity the date
    truncation accepts, the counts of all groups together are the number of
    selected points that have a value; each such point is counted in exactly
    one group. *)
Theorem statistics_counts_add_up (interval_length : string) (trunc : Z -> Z)
    (wkt : option string) (distance : option float) (begin end_ : option Z)
    (table : list Carbonmonoxide) (result : list (list cell)) :
  date_trunc interval_length = Some trunc ->
  Query_all (filter_query (get_statistics interval_length) wkt distance begin end_) table
  = Return result ->
  total_count result
  = Z.of_nat (length (omap Carbonmonoxide_value
       (selected (filter_query (get_statistics interval_length)
                               wkt distance begin end_) table))).
Proof.
  intros Ht.
  destruct (filter_query_shape (get_statistics interval_length) wkt distance begin end_)
    as (Hc & Hg & Hl & Ho).
  unfold Query_all. rewrite Hl, Ho.
  rewrite (Query_rows_statistics _ interval_length trunc) by done.
  simpl. intros [= <-]. rewrite total_count_statistics. f_equal.
  apply groups_partition; [apply NoDup_remove_dups|].
  intros p Hp. apply group_keys_spec. exists p. done.
Qed.

Lemma omap_length_le {A B} (f : A -> option B) (l : list A) :
  (length (omap f l) <= length l)%nat.
Proof.
  induction l as [|x l IH]; [reflexivity|].
  unfold omap in *. simpl. destruct (f x); simpl; lia.
Qed.

Lemma datetime_min_spec (t : Z) (rest : list Z) :
  foldr Z.min t rest ∈ t :: rest /\ forall x, x ∈ t :: rest -> foldr Z.min t rest <= x.
Proof.
  induction rest as [|y rest [IHin IHle]]; simpl.
  - split; [left|]. intros x Hx. apply list_elem_of_singleton in Hx. lia.
  - split.
    + destruct (Z.min_spec y (foldr Z.min t rest)) as [[_ ->]|[_ ->]].
      * right. left.
      * apply elem_of_cons in IHin as [->|Hin]; [left|]. do 2 right. exact Hin.
    + intros x Hx. apply elem_of_cons in Hx as [->|Hx].
      * specialize (IHle t (list_elem_of_here _ _)). lia.
      * apply elem_of_cons in Hx as [->|Hx]; [lia|].
        specialize (IHle x (list_elem_of_further _ _ _ Hx)). lia.
Qed.

Lemma datetime_max_spec (t : Z) (rest : list Z) :
  foldr Z.max t rest ∈ t :: rest /\ forall x, x ∈ t :: rest -> x <= foldr Z.max t rest.
Proof.
  induction rest as [|y rest [IHin IHle]]; simpl.
  - split; [left|]. intros x Hx. apply list_elem_of_singleton in Hx. lia.
  - split.
    + destruct (Z.max_spec y (foldr Z.max t rest)) as [[_ ->]|[_ ->]].
      * apply elem_of_cons in IHin as [->|Hin]; [left|]. do 2 right. exact Hin.
      * right. left.
    + intros x Hx. apply elem_of_cons in Hx as [->|Hx].
      * specialize (IHle t (list_elem_of_here _ _)). lia.
      * apply elem_of_cons in Hx as [->|Hx]; [lia|].
        specialize (IHle x (list_elem_of_further _ _ _ Hx)). lia.
Qed.

(** In the tuple of a group with interval start [t0], the time of the first
    measurement is not after the time of the last one, both fall into the
    interval (they truncate to [t0]), every timestamp of the group lies
    between them, and the count is at most the size of the group. *)
Theorem group_first_last_in_interval (trunc : Z -> Z) (rows : list Carbonmonoxide)
    (t0 : Z) :
  Some t0 ∈ group_keys trunc rows ->
  exists c a sd lo hi first last,
    statistics_row trunc rows (Some t0)
    = [cell_count c; cell_float a; cell_float sd; cell_float lo; cell_float hi;
       cell_datetime (Some first); cell_datetime (Some last); cell_datetime (Some t0)]
    /\ first <= last
    /\ trunc first = t0 /\ trunc last = t0
    /\ (forall p t, p ∈ group_of trunc (Some t0) rows ->
          Carbonmonoxide_timestamp p = Some t -> first <= t <= last)
    /\ 0 <= c <= Z.of_nat (length (group_of trunc (Some t0) rows)).
Proof.
  intros Hkey. apply group_keys_spec in Hkey as (p0 & Hp0 & Hk0).
  set (g := group_of trunc (Some t0) rows).
  assert (Hg : forall p, p ∈ g -> exists t, Carbonmonoxide_timestamp p = Some t
                                          /\ trunc t = t0).
  { intros p Hp. unfold g, group_of in Hp. apply list_elem_of_filter in Hp as [Hp _].
    destruct (Carbonmonoxide_timestamp p) as [t|]; [|discriminate].
    injection Hp as Hp. eauto. }
  assert (Hts : forall t, t ∈ omap Carbonmonoxide_timestamp g -> trunc t = t0).
  { intros t Ht. apply list_elem_of_omap in Ht as (p & Hp & Hpt).
    destruct (Hg p Hp) as (t' & Ht' & Htr). congruence. }
  assert (Hne : exists t ts, omap Carbonmonoxide_timestamp g = t :: ts).
  { assert (Hin : p0 ∈ g) by (unfold g, group_of; apply list_elem_of_filter; done).
    destruct (Hg p0 Hin) as (t & Ht & _).
    assert (Ho : t ∈ omap Carbonmonoxide_timestamp g)
      by (apply list_elem_of_omap; eauto).
    destruct (omap Carbonmonoxide_timestamp g) as [|t' ts]; [inversion Ho|eauto]. }
  destruct Hne as (t & ts & Heq).
  destruct (datetime_min_spec t ts) as [Hmin_in Hmin_le].
  destruct (datetime_max_spec t ts) as [Hmax_in Hmax_le].
  exists (Z.of_nat (length (omap Carbonmonoxide_value g))),
    (avg (omap Carbonmonoxide_value g)), (stddev (omap Carbonmonoxide_value g)),
    (float_min (omap Carbonmonoxide_value g)), (float_max (omap Carbonmonoxide_value g)),
    (foldr Z.min t ts), (foldr Z.max t ts).
  split_and!.
  - unfold statistics_row. fold g. rewrite Heq. reflexivity.
  - specialize (Hmin_le _ Hmax_in). exact Hmin_le.
  - apply Hts. rewrite Heq. exact Hmin_in.
  - apply Hts. rewrite Heq. exact Hmax_in.
  - intros p x Hp Hx.
    assert (Ho : x ∈ t :: ts) by (rewrite <- Heq; apply list_elem_of_omap; eauto).
    split; [apply Hmin_le|apply Hmax_le]; exact Ho.
  - lia.
  - apply Nat2Z.inj_le. apply omap_length_le.
Qed.

End FurtherAggregateProperties.

Lemma averages_one_tuple_per_day_witness :
  Query_all (H := heap_engine) (filter_query get_averages None None None (Some 9))
            heap_points
  = Return (averages_row (take 2 heap_points)
              <$> group_keys (fun t => t) (take 2 heap_points)).
Proof.
  refine (proj1 (averages_one_tuple_per_day (H := heap_engine) None None None (Some 9)
                   heap_points (take 2 heap_points) _)).
  reflexivity.
Defined.

Lemma statistics_counts_add_up_witness :
  total_count (H := heap_engine)
    [ [cell_count 2; int_cell (Some 20); int_cell (Some 14);
       int_cell (Some 10); int_cell (Some 30);
       cell_datetime (Some 1); cell_datetime (Some 3); cell_datetime (Some 0)];
      [cell_count 1; int_cell (Some 20); int_cell None;
       int_cell (Some 20); int_cell (Some 20);
       cell_datetime (Some 9); cell_datetime (Some 9); cell_datetime (Some 7)] ]
  = 3.
Proof.
  refine (statistics_counts_add_up (H := heap_engine) "week" (fun t => t / 7 * 7)
            None None None None heap_points _ _ _).
  - reflexivity.
  - vm_compute. reflexivity.
Defined.

Lemma group_first_last_in_interval_witness :
  exists c a sd lo hi first last,
    statistics_row (H := heap_engine) (fun t => t / 7 * 7) heap_points (Some 0)
    = [cell_count c; cell_float a; cell_float sd; cell_float lo; cell_float hi;
       cell_datetime (Some first); cell_datetime (Some last); cell_datetime (Some 0)]
    /\ first <= last.
Proof.
  destruct (group_first_last_in_interval (H := heap_engine) (fun t => t / 7 * 7)
              heap_points 0)
    as (c & a & sd & lo & hi & first & last & Hrow & Hle & _).
  - vm_compute. left.
  - exists c, a, sd, lo, hi, first, last. split; [exact Hrow|exact Hle].
Defined.

(** ** The web layer: dates, calls and the feature loop *)

Section FurtherWebProperties.
Context `{Imports}.

(** [parse_date] answers a date the parser rejects with 'Invalid begin' or
    'Invalid end' and status 400 without calling the handler, so without a
    session: the server is untouched.  A bad begin is reported before the
    end is looked at; only [ValueError] is caught, any other exception of
    the parser is raised to the caller; two dates that parse reach the
    handler parsed. *)
Theorem parse_date_rejects_before_session
    (f : option Z -> option Z -> endpoint) (end_ : option string) (d : string)
    (srv : Server) :
  (dateutil_parser_parse d = Raise ValueError ->
     parse_date f (Some d) end_ srv = (Return (ErrorResponse "Invalid begin" 400), srv))
  /\ (forall e, dateutil_parser_parse d = Raise e -> e <> ValueError ->
        parse_date f (Some d) end_ srv = (Raise e, srv))
  /\ (dateutil_parser_parse d = Raise ValueError ->
        parse_date f None (Some d) srv = (Return (ErrorResponse "Invalid end" 400), srv))
  /\ (forall b t, dateutil_parser_parse b = Return t ->
        dateutil_parser_parse d = Raise ValueError ->
        parse_date f (Some b) (Some d) srv
        = (Return (ErrorResponse "Invalid end" 400), srv))
  /\ (forall b t t', dateutil_parser_parse b = Return t ->
        dateutil_parser_parse d = Return t' ->
        parse_date f (Some b) (Some d) srv = f (Some t) (Some t') srv).
Proof.
  unfold parse_date, parse_key. split_and!.
  - intros ->. reflexivity.
  - intros e -> Hne. destruct e; try reflexivity. done.
  - intros ->. reflexivity.
  - intros b t -> ->. reflexivity.
  - intros b t t' -> ->. reflexivity.
Qed.





(** The call of [limit_offset_query] as web.py writes it, the query
    positional and limit and offset as keywords, binds and gives what the
    function gives on these arguments; a keyword the function does not have
    is a TypeError. *)
Theorem limit_offset_query_call_binds (q : Query) (l o : option N) (v : pyvalue) :
  getattr emissionsapi_db "limit_offset_query"
  = Return (attr_def def_limit_offset_query)
  /\ call (attr_def def_limit_offset_query) [py_query q]
          [("limit", optional_N l); ("offset", optional_N o)]
     = Return (limit_offset_query q l o)
  /\ call (attr_def def_limit_offset_query) [py_query q] [] = Return q
  /\ call (attr_def def_limit_offset_query) [py_query q] [("order", v)]
     = Raise (TypeError
                "limit_offset_query() got an unexpected keyword argument 'order'")
  /\ call (attr_def def_limit_offset_query) [py_query q] [("query", v)]
     = Raise (TypeError
                "limit_offset_query() got multiple values for argument 'query'")
  /\ call (attr_def def_limit_offset_query) [] [("limit", optional_N l)]
     = Raise (TypeError "limit_offset_query() missing required positional arguments").
Proof.
  split_and!; try reflexivity.
  destruct l, o; reflexivity.
Qed.




End FurtherWebProperties.

Lemma parse_date_rejects_before_session_witness :
  parse_date (H0 := sample_imports)
             (fun b e => with_session (get_data_body (H0 := sample_imports)
                                         emissionsapi_db None None None b e None None))
             (Some "yesterday") (Some "day 3") (sample_server heap_engine [])
  = (Return (ErrorResponse "Invalid begin" 400), sample_server heap_engine []).
Proof.
  refine (proj1 (parse_date_rejects_before_session (H0 := sample_imports) _
                   (Some "day 3") "yesterday" (sample_server heap_engine [])) _).
  reflexivity.
Defined.

(** ** The lazy start of get_session *)

(** After its first call [get_session] touches neither the global nor the
    storage again: every later call returns a session and leaves the process
    as it is.  So when the creation of the tables fails in the first call,
    the exception is raised to that caller, the global is set all the same,
    and no later call creates the tables. *)
Theorem get_session_starts_once (p : Startup.Process) :
  Startup.session_factory p = false ->
  Startup.session_factory (Startup.get_session p).2 = true
  /\ (forall n,
        (Startup.get_sessions n (Startup.get_session p).2).2 = (Startup.get_session p).2
        /\ Forall (fun o => o = Return tt)
                  (Startup.get_sessions n (Startup.get_session p).2).1)
  /\ (forall e rest,
        Startup.failures p = Some e :: rest ->
        (Startup.get_session p).1 = Raise e
        /\ forall n,
             Startup.tables (Startup.get_sessions n (Startup.get_session p).2).2
             = Startup.tables p).
Proof.
  intros Hp.
  assert (Hset : Startup.session_factory (Startup.get_session p).2 = true).
  { unfold Startup.get_session. rewrite Hp. simpl.
    destruct (Startup.failures p) as [|[e|] rest]; reflexivity. }
  assert (Hidle : forall q n, Startup.session_factory q = true ->
            (Startup.get_sessions n q).2 = q
            /\ Forall (fun o => o = Return tt) (Startup.get_sessions n q).1).
  { intros q n Hq. induction n as [|n [IH1 IH2]]; simpl.
    - split; [reflexivity|constructor].
    - assert (Hg : Startup.get_session q = (Return tt, q))
        by (unfold Startup.get_session; rewrite Hq; reflexivity).
      rewrite Hg. simpl. split; [exact IH1|]. constructor; [reflexivity|exact IH2]. }
  split_and!.
  - exact Hset.
  - intros n. apply Hidle, Hset.
  - intros e rest Hf. split.
    + unfold Startup.get_session. rewrite Hp, Hf. reflexivity.
    + intros n. rewrite (proj1 (Hidle _ n Hset)).
      unfold Startup.get_session. rewrite Hp, Hf. reflexivity.
Qed.

Lemma get_session_starts_once_witness :
  Startup.tables
    (Startup.get_sessions 5
       (Startup.get_session
          {| Startup.session_factory := false; Startup.tables := false;
             Startup.failures := [Some OperationalError] |}).2).2
  = false.
Proof.
  refine (proj2 (proj2 (proj2
    (get_session_starts_once
       {| Startup.session_factory := false; Startup.tables := false;
          Startup.failures := [Some OperationalError] |} _))
    OperationalError [] _) 5%nat).
  - reflexivity.
  - reflexivity.
Defined.
